(** * nft-lane: the record service of [app.py]

    A shallow embedding of the request handlers of [app.py] (health,
    mint_nft, get_nft, list_nfts, submit_handler, options_handler) over the
    two module globals [nft_store] and [next_token_id], followed by the
    properties of the service's specification.

    Python values are embedded as follows.
    - [str] is [string]; [bytes] is [list byte]; [int] is [Z] (unbounded).
    - a JSON value as produced by [json.loads] is the inductive [json].
    - a [dict] is an association list in insertion order ([dict_set] keeps
      the position of a key that is already present, as Python does).
    - the two globals and the logger's output form the [world]; a handler is
      a function from a world to an outcome (a value or a raised exception)
      and the world it leaves behind.
    - the interpreter's codec ([bytes.decode], [json.loads], [repr]) is the
      class [Runtime]: the handlers are stated for every runtime.
    - [datetime.now(timezone.utc).isoformat()] is an argument [now] of the
      handlers that read the clock.
    - a handler awaits the request body before it touches the globals and
      never after: on the single-threaded event loop the calls act on the
      globals one after the other, which is [serve_all]. *)

From Stdlib Require Import List String Ascii Strings.Byte ZArith Bool Lia.
From Stdlib Require Import DecimalString DecimalZ.
From Stdlib Require Import SpecFloat.
Import ListNotations.

Local Open Scope string_scope.
Local Open Scope Z_scope.

Set Implicit Arguments.
Set Warnings "-register-all".

(* ------------------------------------------------------------------ *)
(** ** Python values                                                   *)
(* ------------------------------------------------------------------ *)

Definition str := string.
Definition bytes := list byte.

(** [str(n)] for an [int]. *)
Definition str_of_int (n : Z) : str := NilZero.string_of_int (Z.to_int n).

(** A [dict] with [str] keys, in insertion order. *)
Section Dict.
Variable V : Type.

Definition dict := list (str * V).

(** [d.get(k)], with [None] for a missing key. *)
Fixpoint dict_get (k : str) (d : dict) : option V :=
  match d with
  | [] => None
  | (k', v) :: d' => if String.eqb k k' then Some v else dict_get k d'
  end.

(** [d.get(k, dflt)]. *)
Definition dict_get_default (k : str) (dflt : V) (d : dict) : V :=
  match dict_get k d with
  | Some v => v
  | None => dflt
  end.

(** [k in d]. *)
Definition dict_contains (k : str) (d : dict) : bool :=
  match dict_get k d with
  | Some _ => true
  | None => false
  end.

(** [d[k] = v]: replaces in place when [k] is present, appends otherwise. *)
Fixpoint dict_set (k : str) (v : V) (d : dict) : dict :=
  match d with
  | [] => [(k, v)]
  | (k', v') :: d' =>
      if String.eqb k k' then (k', v) :: d' else (k', v') :: dict_set k v d'
  end.

(** [d.keys()] and [len(d)]. *)
Definition dict_keys (d : dict) : list str := map fst d.
Definition dict_len (d : dict) : Z := Z.of_nat (List.length d).
End Dict.

(** What [json.loads] returns: [None], [bool], [int], [float], [str],
    [list] or [dict]. *)
Inductive json : Type :=
| JNull
| JBool (b : bool)
| JInt (z : Z)
| JFloat (f : spec_float)
| JStr (s : str)
| JList (l : list json)
| JDict (d : list (str * json)).

(** [bool(x)], as used by [not x] and [x or y]. *)
Definition truthy (j : json) : bool :=
  match j with
  | JNull => false
  | JBool b => b
  | JInt z => negb (z =? 0)
  | JFloat (S754_zero _) => false
  | JFloat _ => true
  | JStr EmptyString => false
  | JStr _ => true
  | JList [] => false
  | JList _ => true
  | JDict [] => false
  | JDict _ => true
  end.

(** [type(x).__name__]. *)
Definition type_name (j : json) : str :=
  match j with
  | JNull => "NoneType"
  | JBool _ => "bool"
  | JInt _ => "int"
  | JFloat _ => "float"
  | JStr _ => "str"
  | JList _ => "list"
  | JDict _ => "dict"
  end.

(** Exceptions: the class decides which [except] clause catches it,
    [str(e)] is the message. *)
Inductive exn_class : Type :=
| UnicodeDecodeError
| JSONDecodeError
| AttributeError
| KeyError
| OtherException.

Record exn : Type := Exn { exn_type : exn_class; exn_str : str }.

Inductive outcome (A : Type) : Type :=
| Returned (a : A)
| Raised (e : exn).
Arguments Returned {A} a.
Arguments Raised {A} e.

(** The part of the interpreter and its library that the handlers call on
    data: [bytes.decode("utf-8")], [json.loads] and [repr] (which [str]
    falls back to on floats and containers). *)
Class Runtime : Type := {
  bytes_decode_utf8 : bytes -> outcome str;
  json_loads : str -> outcome json;
  repr : json -> str
}.

(** [str(x)] on a JSON value. *)
Definition py_str `{Runtime} (j : json) : str :=
  match j with
  | JNull => "None"
  | JBool true => "True"
  | JBool false => "False"
  | JInt z => str_of_int z
  | JStr s => s
  | JFloat _ | JList _ | JDict _ => repr j
  end.

(* ------------------------------------------------------------------ *)
(** ** The service state                                               *)
(* ------------------------------------------------------------------ *)

(** A stored NFT: [{"owner": ..., "metadata": ..., "minted_at": ...}]. *)
Record nft : Type := Nft {
  owner : json;
  metadata : json;
  minted_at : str
}.

(** The records written by [logger], one constructor for each call of
    [logger.info] or [logger.exception] in the handlers. *)
Inductive log_record : Type :=
| LogMinted (token_id : str) (owner : json)                (* line 81 *)
| LogMintedFromSubmission (token_id : str) (owner : json)  (* line 184 *)
| LogSkippingMint (token_id : str)                         (* line 188 *)
| LogReceived (n : Z) (forwarded_from : str)               (* line 150 *)
| LogRawData (n : Z)                                       (* line 192 *)
| LogException (msg : str) (e : exn).                      (* lines 93, 205 *)

(** The message of a record, as the f-strings format it. *)
Definition log_message `{Runtime} (r : log_record) : str :=
  match r with
  | LogMinted token_id owner =>
      "Minted NFT: token_id=" ++ token_id ++ ", owner=" ++ py_str owner
  | LogMintedFromSubmission token_id owner =>
      "Minted NFT from core-lane submission: token_id=" ++ token_id
      ++ ", owner=" ++ py_str owner
  | LogSkippingMint token_id =>
      "Token " ++ token_id ++ " already exists, skipping mint"
  | LogReceived n forwarded_from =>
      "Received " ++ str_of_int n ++ " bytes from " ++ forwarded_from
  | LogRawData n =>
      "Processing " ++ str_of_int n ++ " bytes of raw data"
  | LogException msg _ => msg
  end.

(** The module globals, and what has been logged so far. *)
Record world : Type := World {
  nft_store : dict nft;
  next_token_id : Z;
  logged : list log_record
}.

(** The state at import time: [nft_store = {}], [next_token_id = 1]. *)
Definition initial_world : world :=
  {| nft_store := []; next_token_id := 1; logged := [] |}.

(** An HTTP response: [web.json_response(data, status=..., headers=...)]
    or [web.Response(headers=...)]. *)
Record response : Type := Response {
  status : Z;
  body : option json;
  headers : dict str
}.

(** What a handler reads of an [aiohttp] request. *)
Record request : Type := Request {
  request_read : bytes;            (* await request.read() *)
  request_json : outcome json;     (* await request.json() *)
  request_headers : dict str;      (* request.headers *)
  request_match_info : dict str    (* request.match_info *)
}.

(* ------------------------------------------------------------------ *)
(** ** Handlers as state transformers                                  *)
(* ------------------------------------------------------------------ *)

Definition handler (A : Type) : Type := world -> outcome A * world.

Definition ret {A} (a : A) : handler A := fun w => (Returned a, w).

Definition bind {A B} (m : handler A) (k : A -> handler B) : handler B :=
  fun w =>
    match m w with
    | (Returned a, w') => k a w'
    | (Raised e, w') => (Raised e, w')
    end.

Definition raise {A} (e : exn) : handler A := fun w => (Raised e, w).

(** [try: body / except <classes>: on_exn]. *)
Definition try_except {A} (body : handler A) (catches : exn_class -> bool)
    (on_exn : exn -> handler A) : handler A :=
  fun w =>
    match body w with
    | (Returned a, w') => (Returned a, w')
    | (Raised e, w') =>
        if catches (exn_type e) then on_exn e w' else (Raised e, w')
    end.

Definition lift {A} (o : outcome A) : handler A := fun w => (o, w).

Declare Scope handler_scope.
Delimit Scope handler_scope with handler.
Notation "x <- c1 ;; c2" := (bind c1 (fun x => c2))
  (at level 61, c1 at next level, right associativity) : handler_scope.
Notation "c1 ;; c2" := (bind c1 (fun _ => c2))
  (at level 61, right associativity) : handler_scope.
Local Open Scope handler_scope.

Definition read_nft_store : handler (dict nft) :=
  fun w => (Returned (nft_store w), w).

Definition read_next_token_id : handler Z :=
  fun w => (Returned (next_token_id w), w).

Definition write_next_token_id (n : Z) : handler unit :=
  fun w => (Returned tt,
            {| nft_store := nft_store w; next_token_id := n;
               logged := logged w |}).

(** [nft_store[token_id] = value]. *)
Definition nft_store_setitem (token_id : str) (value : nft) : handler unit :=
  fun w => (Returned tt,
            {| nft_store := dict_set token_id value (nft_store w);
               next_token_id := next_token_id w;
               logged := logged w |}).

(** [nft_store[token_id]], raising [KeyError(token_id)] on a missing key. *)
Definition nft_store_getitem `{Runtime} (token_id : str) : handler nft :=
  fun w =>
    match dict_get token_id (nft_store w) with
    | Some v => (Returned v, w)
    | None => (Raised (Exn KeyError (repr (JStr token_id))), w)
    end.

Definition logger (r : log_record) : handler unit :=
  fun w => (Returned tt,
            {| nft_store := nft_store w; next_token_id := next_token_id w;
               logged := (logged w ++ [r])%list |}).

(** [data.get(key, dflt)] on whatever [data] is: an [AttributeError] unless
    it is a [dict]. *)
Definition attr_get (data : json) (key : str) (dflt : json) : handler json :=
  match data with
  | JDict d => ret (dict_get_default key dflt d)
  | _ => raise (Exn AttributeError
                  ("'" ++ type_name data ++ "' object has no attribute 'get'"))
  end.

Definition catch_Exception (_ : exn_class) : bool := true.

Definition catch_decode_errors (c : exn_class) : bool :=
  match c with
  | UnicodeDecodeError | JSONDecodeError => true
  | _ => false
  end.

(* ------------------------------------------------------------------ *)
(** ** The handlers of [app.py]                                        *)
(* ------------------------------------------------------------------ *)

Definition cors_headers : dict str :=
  [ ("Access-Control-Allow-Origin", "*");
    ("Access-Control-Allow-Methods", "GET, POST, OPTIONS");
    ("Access-Control-Allow-Headers", "Content-Type") ].

(** [web.json_response(data, status=status, headers=cors_headers())]. *)
Definition json_response (data : json) (status : Z) : response :=
  {| status := status; body := Some data; headers := cors_headers |}.

(** A stored record as the JSON object it is. *)
Definition nft_json (r : nft) : list (str * json) :=
  [ ("owner", owner r); ("metadata", metadata r);
    ("minted_at", JStr (minted_at r)) ].

(** [len(data)] on [bytes]. *)
Definition len (data : bytes) : Z := Z.of_nat (List.length data).

(** [s or dflt] for an optional string [s]: [None] and [""] are falsy. *)
Definition str_or {A} (s : option str) (inj : str -> A) (dflt : A) : A :=
  match s with
  | Some (String _ _ as u) => inj u
  | _ => dflt
  end.

(** The routes of [app.router]. *)
Inductive route : Type :=
| GET_health
| POST_mint
| GET_nfts
| GET_nft
| POST_submit
| OPTIONS_any.

(** One request as the event loop runs it: the route it matched, the
    request, and what the clock reads while it is handled. *)
Record call : Type := Call {
  call_route : route;
  call_now : str;
  call_request : request
}.

Section Handlers.
Context `{Runtime}.

(** Lines 59-64 of [mint_nft] and 170-175 of [submit_handler]:
<<
    if not token_id:
        global next_token_id
        token_id = str(next_token_id)
        next_token_id += 1
    else:
        token_id = str(token_id)
>> *)
Definition resolve_token_id (token_id : json) : handler str :=
  if negb (truthy token_id) then
    n <- read_next_token_id ;;
    write_next_token_id (n + 1) ;;
    ret (str_of_int n)
  else
    ret (py_str token_id).

Definition health (now : str) (request : request) : handler response :=
  store <- read_nft_store ;;
  ret (json_response
         (JDict [ ("status", JStr "OK");
                  ("timestamp", JStr now);
                  ("service", JStr "nft-lane");
                  ("version", JStr "1.0.0");
                  ("nfts_minted", JInt (dict_len store)) ])
         200).

Definition mint_nft (now : str) (request : request) : handler response :=
  try_except
    (data <- lift (request_json request) ;;
     token_id <- attr_get data "token_id" JNull ;;
     metadata <- attr_get data "metadata" (JDict []) ;;
     owner <- attr_get data "owner" (JStr "unknown") ;;
     token_id <- resolve_token_id token_id ;;
     store <- read_nft_store ;;
     if dict_contains token_id store then
       ret (json_response
              (JDict [ ("status", JStr "error");
                       ("message",
                        JStr ("Token ID " ++ token_id ++ " already exists")) ])
              400)
     else
       nft_store_setitem token_id
         {| owner := owner; metadata := metadata; minted_at := now |} ;;
       logger (LogMinted token_id owner) ;;
       stored <- nft_store_getitem token_id ;;
       ret (json_response
              (JDict [ ("status", JStr "ok");
                       ("message", JStr "NFT minted successfully");
                       ("token_id", JStr token_id);
                       ("nft", JDict (nft_json stored)) ])
              200))
    catch_Exception
    (fun e =>
       logger (LogException "Error minting NFT" e) ;;
       ret (json_response
              (JDict [ ("status", JStr "error");
                       ("message", JStr (exn_str e)) ])
              500)).

Definition get_nft (request : request) : handler response :=
  let token_id := dict_get "token_id" (request_match_info request) in
  match token_id with
  | None | Some EmptyString =>
      ret (json_response
             (JDict [ ("status", JStr "error");
                      ("message", JStr "Token ID required") ])
             400)
  | Some token_id =>
      store <- read_nft_store ;;
      if negb (dict_contains token_id store) then
        ret (json_response
               (JDict [ ("status", JStr "error");
                        ("message", JStr ("NFT " ++ token_id ++ " not found")) ])
               404)
      else
        stored <- nft_store_getitem token_id ;;
        ret (json_response
               (JDict [ ("status", JStr "ok");
                        ("token_id", JStr token_id);
                        ("nft", JDict (nft_json stored)) ])
               200)
  end.

Definition list_nfts (request : request) : handler response :=
  store <- read_nft_store ;;
  let nfts :=
    map (fun item : str * nft =>
           let (token_id, nft_data) := item in
           JDict (("token_id", JStr token_id) :: nft_json nft_data))
        store in
  ret (json_response
         (JDict [ ("status", JStr "ok");
                  ("count", JInt (Z.of_nat (List.length nfts)));
                  ("nfts", JList nfts) ])
         200).

Definition submit_handler (now : str) (request : request)
  : handler response :=
  try_except
    (let data := request_read request in
     let forwarded_from :=
       dict_get "X-Forwarded-From" (request_headers request) in
     let content_type := dict_get "X-Content-Type" (request_headers request) in
     let user := dict_get "X-User" (request_headers request) in
     let timestamp := dict_get "X-Timestamp" (request_headers request) in
     logger (LogReceived (len data)
               (str_or forwarded_from (fun s => s) "unknown source")) ;;
     try_except
       (json_str <- lift (bytes_decode_utf8 data) ;;
        json_data <- lift (json_loads json_str) ;;
        match json_data with
        | JDict d =>
            if dict_contains "token_id" d || dict_contains "metadata" d then
              let token_id := dict_get_default "token_id" JNull d in
              let metadata := dict_get_default "metadata" (JDict []) d in
              let owner :=
                str_or user JStr
                  (dict_get_default "owner" (JStr "unknown") d) in
              token_id <- resolve_token_id token_id ;;
              store <- read_nft_store ;;
              if negb (dict_contains token_id store) then
                nft_store_setitem token_id
                  {| owner := owner; metadata := metadata;
                     minted_at := now |} ;;
                logger (LogMintedFromSubmission token_id owner)
              else
                logger (LogSkippingMint token_id)
            else ret tt
        | _ => ret tt
        end)
       catch_decode_errors
       (fun _ => logger (LogRawData (len data))) ;;
     ret (json_response
            (JDict [ ("status", JStr "ok");
                     ("message", JStr "Submission processed successfully");
                     ("bytes_received", JInt (len data)) ])
            200))
    catch_Exception
    (fun e =>
       logger (LogException "Unexpected error processing submission" e) ;;
       ret (json_response
              (JDict [ ("status", JStr "error");
                       ("message", JStr (exn_str e)) ])
              500)).

(** [web.Response(headers=cors_headers())]. *)
Definition options_handler (request : request) : handler response :=
  ret {| status := 200; body := None; headers := cors_headers |}.

Definition serve (c : call) : handler response :=
  match call_route c with
  | GET_health => health (call_now c) (call_request c)
  | POST_mint => mint_nft (call_now c) (call_request c)
  | GET_nfts => list_nfts (call_request c)
  | GET_nft => get_nft (call_request c)
  | POST_submit => submit_handler (call_now c) (call_request c)
  | OPTIONS_any => options_handler (call_request c)
  end.

(** The handlers run one after the other on the event loop: none of them
    yields between its first access to the globals and its last. *)
Fixpoint serve_all (cs : list call) (w : world)
  : list (outcome response) * world :=
  match cs with
  | [] => ([], w)
  | c :: cs' =>
      let (r, w') := serve c w in
      let (rs, w'') := serve_all cs' w' in
      (r :: rs, w'')
  end.

(** The world after a run. *)
Definition world_after (cs : list call) (w : world) : world :=
  snd (serve_all cs w).
End Handlers.

(* ------------------------------------------------------------------ *)
(** ** What a request asks for, and what a run shows                   *)
(* ------------------------------------------------------------------ *)

(** A field of a JSON response body. *)
Definition field (k : str) (r : response) : option json :=
  match body r with
  | Some (JDict d) => dict_get k d
  | _ => None
  end.

(** The two shapes of a JSON answer: [{"status": "ok", ...}] with HTTP
    status 200, and [{"status": "error", "message": ...}] with an error
    status. *)
Definition is_ok (r : response) : Prop :=
  status r = 200 /\ field "status" r = Some (JStr "ok").

Definition is_error (code : Z) (r : response) : Prop :=
  status r = code /\ field "status" r = Some (JStr "error") /\
  exists m, field "message" r = Some (JStr m).

(** Counting in the log and in a run: the records that report a
    submission received, those that report an exception, the calls of
    [/submit], the answers with status 500. *)
Definition is_received (r : log_record) : bool :=
  match r with
  | LogReceived _ _ => true
  | _ => false
  end.

Definition is_exception (r : log_record) : bool :=
  match r with
  | LogException _ _ => true
  | _ => false
  end.

Definition is_submit (c : call) : bool :=
  match call_route c with
  | POST_submit => true
  | _ => false
  end.

Definition is_500 (o : outcome response) : bool :=
  match o with
  | Returned r => status r =? 500
  | Raised _ => false
  end.

(** The test of line 161-163 on a parsed object. *)
Definition mint_shaped (d : list (str * json)) : bool :=
  dict_contains "token_id" d || dict_contains "metadata" d.

(** The ids for which [logger] reports a record created. *)
Definition minted_ids (log : list log_record) : list str :=
  flat_map (fun r =>
              match r with
              | LogMinted i _ | LogMintedFromSubmission i _ => [i]
              | _ => []
              end) log.

Section Asks.
Context `{Runtime}.

(** Lines 157-158: [json.loads(data.decode("utf-8"))]. *)
Definition decode_and_parse (data : bytes) : outcome json :=
  match bytes_decode_utf8 data with
  | Returned json_str => json_loads json_str
  | Raised e => Raised e
  end.

(** The JSON object that a call makes its handler mint from, if any:
    the body of a [/mint] call, the mint-shaped payload of a [/submit]. *)
Definition mint_body (c : call) : option (list (str * json)) :=
  match call_route c with
  | POST_mint =>
      match request_json (call_request c) with
      | Returned (JDict d) => Some d
      | _ => None
      end
  | POST_submit =>
      match decode_and_parse (request_read (call_request c)) with
      | Returned (JDict d) => if mint_shaped d then Some d else None
      | _ => None
      end
  | _ => None
  end.

(** The call asks for a server-generated id. *)
Definition auto_generating (c : call) : bool :=
  match mint_body c with
  | Some d => negb (truthy (dict_get_default "token_id" JNull d))
  | None => false
  end.

(** The id the call supplies itself, if it does. *)
Definition explicit_id (c : call) : list str :=
  match mint_body c with
  | Some d =>
      let token_id := dict_get_default "token_id" JNull d in
      if truthy token_id then [py_str token_id] else []
  | None => []
  end.

Definition count_auto (cs : list call) : Z :=
  Z.of_nat (List.length (filter auto_generating cs)).

Definition explicit_ids (cs : list call) : list str :=
  flat_map explicit_id cs.

(** The id a call asks to mint while the counter reads [n]: the one it
    supplies, or the decimal of [n]. *)
Definition asked_id (n : Z) (c : call) : option str :=
  match mint_body c with
  | Some d =>
      let token_id := dict_get_default "token_id" JNull d in
      Some (if truthy token_id then py_str token_id else str_of_int n)
  | None => None
  end.

(** The ids that the calls of a run ask to mint, one after the other,
    when the counter reads [n] at the start: read off the calls alone. *)
Fixpoint asked_ids (n : Z) (cs : list call) : list str :=
  match cs with
  | [] => []
  | c :: cs' =>
      match asked_id n c with
      | Some id => id :: asked_ids (if auto_generating c then n + 1 else n) cs'
      | None => asked_ids n cs'
      end
  end.

(** The id that the answer to a [/mint] call reports as minted: the
    [token_id] of an answer with status 200. *)
Definition minted_answer (c : call) (o : outcome response) : list str :=
  match call_route c, o with
  | POST_mint, Returned r =>
      if status r =? 200 then
        match field "token_id" r with
        | Some (JStr id) => [id]
        | _ => []
        end
      else []
  | _, _ => []
  end.

(** The ids reported as minted by the answers of a run. *)
Definition answered_ids (cs : list call) (rs : list (outcome response))
  : list str :=
  flat_map (fun p => minted_answer (fst p) (snd p)) (combine cs rs).

(** The effect of a call: it returns a response; the counter moves by one
    exactly when the call asks for a generated id; the table is either
    left alone or extended by one record under an id that was not there,
    and that id is the one the call supplied or the one generated. *)
Definition effect_of (c : call) (w : world) (r : response) (w' : world)
  : Prop :=
  next_token_id w' = next_token_id w + (if auto_generating c then 1 else 0) /\
  ((nft_store w' = nft_store w /\
    minted_ids (logged w') = minted_ids (logged w))
   \/
   (exists id rec,
       dict_get id (nft_store w) = None /\
       nft_store w' = dict_set id rec (nft_store w) /\
       minted_ids (logged w') = (minted_ids (logged w) ++ [id])%list /\
       (In id (explicit_id c) \/
        (auto_generating c = true /\ id = str_of_int (next_token_id w))))).
End Asks.

(* ------------------------------------------------------------------ *)
(** ** A runtime for the examples                                      *)
(* ------------------------------------------------------------------ *)

(** Strict UTF-8 (RFC 3629): no overlong forms, no surrogates, nothing
    above U+10FFFF. *)
Definition in_range (lo hi : N) (b : byte) : bool :=
  ((lo <=? Byte.to_N b) && (Byte.to_N b <=? hi))%N.

Definition cont : byte -> bool := in_range 128 191.

Fixpoint utf8_valid (data : bytes) : bool :=
  match data with
  | [] => true
  | b0 :: r0 =>
      if in_range 0 127 b0 then utf8_valid r0
      else
        match r0 with
        | [] => false
        | b1 :: r1 =>
            if in_range 194 223 b0 then cont b1 && utf8_valid r1
            else
              match r1 with
              | [] => false
              | b2 :: r2 =>
                  if in_range 224 224 b0 then
                    in_range 160 191 b1 && cont b2 && utf8_valid r2
                  else if in_range 237 237 b0 then
                    in_range 128 159 b1 && cont b2 && utf8_valid r2
                  else if in_range 225 239 b0 then
                    cont b1 && cont b2 && utf8_valid r2
                  else
                    match r2 with
                    | [] => false
                    | b3 :: r3 =>
                        if in_range 240 240 b0 then
                          in_range 144 191 b1 && cont b2 && cont b3
                          && utf8_valid r3
                        else if in_range 241 243 b0 then
                          cont b1 && cont b2 && cont b3 && utf8_valid r3
                        else if in_range 244 244 b0 then
                          in_range 128 143 b1 && cont b2 && cont b3
                          && utf8_valid r3
                        else false
                    end
              end
        end
  end.

(** The double quote, and the JSON texts of the examples. *)
Definition dq : str := String "034"%char EmptyString.
Definition quoted (s : str) : str := dq ++ s ++ dq.

(** [{"token_id":"7","metadata":{"x":1}}] *)
Definition text_token7 : str :=
  "{" ++ quoted "token_id" ++ ":" ++ quoted "7" ++ "," ++
  quoted "metadata" ++ ":{" ++ quoted "x" ++ ":1}}".

(** [{"token_id":"7","owner":"bob"}] *)
Definition text_token7_bob : str :=
  "{" ++ quoted "token_id" ++ ":" ++ quoted "7" ++ "," ++
  quoted "owner" ++ ":" ++ quoted "bob" ++ "}".

(** [{"metadata":{}}] *)
Definition text_metadata_only : str := "{" ++ quoted "metadata" ++ ":{}}".

(** [{"note":"hi"}] *)
Definition text_note : str :=
  "{" ++ quoted "note" ++ ":" ++ quoted "hi" ++ "}".

(** [[1, 2]] *)
Definition text_list : str := "[1, 2]".

Definition example_texts : list (str * json) :=
  [ (text_token7,
     JDict [("token_id", JStr "7"); ("metadata", JDict [("x", JInt 1)])]);
    (text_token7_bob,
     JDict [("token_id", JStr "7"); ("owner", JStr "bob")]);
    (text_metadata_only, JDict [("metadata", JDict [])]);
    (text_note, JDict [("note", JStr "hi")]);
    (text_list, JList [JInt 1; JInt 2]) ].

(** The runtime on the payloads of the examples: real UTF-8 validation,
    [json.loads] tabulated on [example_texts] and failing elsewhere,
    [repr] never called. *)
Definition example_runtime : Runtime :=
  {| bytes_decode_utf8 data :=
       if utf8_valid data then Returned (string_of_list_byte data)
       else Raised (Exn UnicodeDecodeError
                      "'utf-8' codec can't decode bytes");
     json_loads s :=
       match dict_get s example_texts with
       | Some j => Returned j
       | None => Raised (Exn JSONDecodeError "Expecting value")
       end;
     repr _ := "" |}.

(** CPython 3.11 and later refuse to convert a decimal literal of more
    than 4300 digits ([sys.int_info.default_max_str_digits]): on such a
    text [json.loads] raises a plain [ValueError], which is not a
    [JSONDecodeError].  [limited_runtime] is the runtime of the examples
    with this limit. *)
Definition is_digit (c : ascii) : bool :=
  ((48 <=? nat_of_ascii c) && (nat_of_ascii c <=? 57))%nat.

Fixpoint all_digits (s : str) : bool :=
  match s with
  | EmptyString => true
  | String c s' => is_digit c && all_digits s'
  end.

Definition int_max_str_digits : nat := 4300.

Definition long_integer_literal (s : str) : bool :=
  match s with
  | EmptyString => false
  | String c _ =>
      negb (Ascii.eqb c "0") && all_digits s
      && (int_max_str_digits <? String.length s)%nat
  end.

Definition limited_runtime : Runtime :=
  {| bytes_decode_utf8 := bytes_decode_utf8 (Runtime := example_runtime);
     json_loads s :=
       if long_integer_literal s then
         Raised (Exn OtherException
                   ("Exceeds the limit (4300 digits) for integer string "
                    ++ "conversion: value has "
                    ++ str_of_int (Z.of_nat (String.length s))
                    ++ " digits; use sys.set_int_max_str_digits() "
                    ++ "to increase the limit"))
       else json_loads (Runtime := example_runtime) s;
     repr := repr (Runtime := example_runtime) |}.

(** The payload [b"1" * 5000]. *)
Definition five_thousand_ones : bytes := repeat "1"%byte 5000.

(** Requests of the examples. *)
Definition json_request (j : json) : request :=
  {| request_read := []; request_json := Returned j;
     request_headers := []; request_match_info := [] |}.

Definition raw_request (data : bytes) (hdrs : dict str) : request :=
  {| request_read := data;
     request_json := Raised (Exn OtherException "");
     request_headers := hdrs; request_match_info := [] |}.

Definition path_request (info : dict str) : request :=
  {| request_read := []; request_json := Raised (Exn OtherException "");
     request_headers := []; request_match_info := info |}.

Definition mint_call (now : str) (j : json) : call :=
  Call POST_mint now (json_request j).

Definition submit_call (now : str) (text : str) (hdrs : dict str) : call :=
  Call POST_submit now (raw_request (list_byte_of_string text) hdrs).

(* ------------------------------------------------------------------ *)
(** ** Facts about [dict] and [str]                                    *)
(* ------------------------------------------------------------------ *)

Unset Implicit Arguments.

Section DictFacts.
Variable V : Type.
Implicit Types (d : dict V) (k : str) (v : V).

Lemma dict_get_set_same k v d : dict_get k (dict_set k v d) = Some v.
Proof.
  induction d as [|[k' v'] d IH]; simpl.
  - now rewrite String.eqb_refl.
  - destruct (String.eqb k k') eqn:E; simpl; rewrite E; auto.
Qed.

Lemma dict_get_set_other k k' v d :
  k <> k' -> dict_get k' (dict_set k v d) = dict_get k' d.
Proof.
  intros Hne. induction d as [|[k0 v0] d IH]; simpl.
  - destruct (String.eqb_spec k' k); congruence.
  - destruct (String.eqb_spec k k0) as [->|]; simpl.
    + destruct (String.eqb_spec k' k0); congruence.
    + now rewrite IH.
Qed.

Lemma dict_set_fresh k v d :
  dict_get k d = None -> dict_set k v d = (d ++ [(k, v)])%list.
Proof.
  induction d as [|[k' v'] d IH]; simpl; auto.
  destruct (String.eqb k k'); [discriminate|].
  intros Hd. now rewrite IH.
Qed.

Lemma dict_contains_false k d :
  dict_contains k d = false <-> dict_get k d = None.
Proof. unfold dict_contains. destruct (dict_get k d); split; congruence. Qed.

Lemma dict_contains_true k d :
  dict_contains k d = true <-> exists v, dict_get k d = Some v.
Proof.
  unfold dict_contains. destruct (dict_get k d) as [v|]; split;
    try congruence; eauto.
  intros [v Hv]. discriminate.
Qed.

Lemma dict_contains_keys k d :
  dict_contains k d = true <-> In k (dict_keys d).
Proof.
  unfold dict_contains, dict_keys.
  induction d as [|[k' v'] d IH]; simpl.
  - split; [discriminate | tauto].
  - destruct (String.eqb_spec k k') as [->|Hne].
    + split; auto.
    + rewrite IH. split; auto. intros [Heq|Hin]; congruence.
Qed.

Lemma dict_get_In k v d : dict_get k d = Some v -> In (k, v) d.
Proof.
  induction d as [|[k' v'] d IH]; simpl; [discriminate|].
  destruct (String.eqb_spec k k') as [->|Hne]; intros Hd.
  - left. congruence.
  - right. auto.
Qed.

Lemma dict_In_get k v d :
  NoDup (dict_keys d) -> In (k, v) d -> dict_get k d = Some v.
Proof.
  unfold dict_keys.
  induction d as [|[k' v'] d IH]; simpl; [tauto|].
  intros Hnd [Heq|Hin]; inversion Hnd; subst.
  - injection Heq as -> ->. now rewrite String.eqb_refl.
  - destruct (String.eqb_spec k k') as [->|Hne]; auto.
    exfalso. apply H1. change k' with (fst (k', v)). now apply in_map.
Qed.

Lemma dict_keys_set_fresh k v d :
  dict_get k d = None -> dict_keys (dict_set k v d) = (dict_keys d ++ [k])%list.
Proof.
  intros Hd. rewrite dict_set_fresh by assumption.
  unfold dict_keys. now rewrite map_app.
Qed.

End DictFacts.

(** [str] on integers is decimal notation: it is injective. *)
Lemma str_of_int_inj (n m : Z) : str_of_int n = str_of_int m -> n = m.
Proof.
  unfold str_of_int. intros Heq.
  apply DecimalZ.to_int_inj.
  assert (Hnz : forall z, Z.to_int z <> Decimal.Pos Decimal.Nil /\
                          Z.to_int z <> Decimal.Neg Decimal.Nil).
  { intros [|p|p]; simpl; split; try discriminate;
      intros [= Hp]; revert Hp; apply DecimalPos.Unsigned.to_uint_nonnil. }
  assert (Hs : forall z, NilZero.int_of_string
                           (NilZero.string_of_int (Z.to_int z))
                         = Some (Z.to_int z)).
  { intros z. apply NilZero.isi; apply Hnz. }
  pose proof (Hs n) as Hn. rewrite Heq, Hs in Hn. congruence.
Qed.

(* ------------------------------------------------------------------ *)
(** ** The handlers, case by case                                      *)
(* ------------------------------------------------------------------ *)

Ltac run_handler :=
  unfold try_except, bind, lift, ret, raise, logger, attr_get,
    read_nft_store, read_next_token_id, write_next_token_id,
    nft_store_setitem, nft_store_getitem, catch_Exception in *;
  simpl in *.

Section Cases.
Context `{Runtime}.
Implicit Types (w : world) (d : list (str * json)) (id now : str).

Lemma resolve_token_id_explicit t w :
  truthy t = true -> resolve_token_id t w = (Returned (py_str t), w).
Proof. intros Ht. unfold resolve_token_id. now rewrite Ht. Qed.

Lemma resolve_token_id_auto t w :
  truthy t = false ->
  resolve_token_id t w =
  (Returned (str_of_int (next_token_id w)),
   {| nft_store := nft_store w; next_token_id := next_token_id w + 1;
      logged := logged w |}).
Proof. intros Ht. unfold resolve_token_id. now rewrite Ht. Qed.

(** Resolving an id always returns, and touches only the counter. *)
Lemma resolve_token_id_returns t w :
  exists id w1,
    resolve_token_id t w = (Returned id, w1) /\
    nft_store w1 = nft_store w /\ logged w1 = logged w /\
    next_token_id w1 = next_token_id w + (if truthy t then 0 else 1) /\
    id = (if truthy t then py_str t else str_of_int (next_token_id w)).
Proof.
  destruct (truthy t) eqn:Ht.
  - exists (py_str t), w. rewrite resolve_token_id_explicit by assumption.
    repeat split; lia.
  - eexists _, _. rewrite resolve_token_id_auto by assumption.
    repeat split.
Qed.

Lemma mint_nft_conflict now req w d id w1 :
  request_json req = Returned (JDict d) ->
  resolve_token_id (dict_get_default "token_id" JNull d) w
  = (Returned id, w1) ->
  dict_contains id (nft_store w1) = true ->
  mint_nft now req w =
  (Returned
     (json_response
        (JDict [ ("status", JStr "error");
                 ("message",
                  JStr ("Token ID " ++ id ++ " already exists")) ])
        400),
   w1).
Proof.
  intros Hreq Hres Hin. unfold mint_nft. run_handler.
  rewrite Hreq. simpl. rewrite Hres. simpl. now rewrite Hin.
Qed.

Lemma mint_nft_created now req w d id w1 :
  request_json req = Returned (JDict d) ->
  resolve_token_id (dict_get_default "token_id" JNull d) w
  = (Returned id, w1) ->
  dict_contains id (nft_store w1) = false ->
  let stored :=
    {| owner := dict_get_default "owner" (JStr "unknown") d;
       metadata := dict_get_default "metadata" (JDict []) d;
       minted_at := now |} in
  mint_nft now req w =
  (Returned
     (json_response
        (JDict [ ("status", JStr "ok");
                 ("message", JStr "NFT minted successfully");
                 ("token_id", JStr id);
                 ("nft", JDict (nft_json stored)) ])
        200),
   {| nft_store := dict_set id stored (nft_store w1);
      next_token_id := next_token_id w1;
      logged := (logged w1
                 ++ [LogMinted id
                       (dict_get_default "owner" (JStr "unknown") d)])%list |}).
Proof.
  intros Hreq Hres Hin. unfold mint_nft. run_handler.
  rewrite Hreq. simpl. rewrite Hres. simpl. rewrite Hin. simpl.
  now rewrite dict_get_set_same.
Qed.

(** Anything but a JSON object for a body ends in the [except] clause. *)
Lemma mint_nft_failed now req w :
  (forall d, request_json req <> Returned (JDict d)) ->
  exists e,
    mint_nft now req w =
    (Returned
       (json_response
          (JDict [ ("status", JStr "error"); ("message", JStr (exn_str e)) ])
          500),
     {| nft_store := nft_store w; next_token_id := next_token_id w;
        logged := (logged w ++ [LogException "Error minting NFT" e])%list |}).
Proof.
  intros Hreq. unfold mint_nft. run_handler.
  destruct (request_json req) as [j|e] eqn:Ej.
  - destruct j; try (eexists; reflexivity). now elim (Hreq d).
  - eexists; reflexivity.
Qed.

(** ** [submit_handler] *)

(** The acknowledgement of lines 195-203. *)
Lemma submit_handler_opaque now req w e :
  decode_and_parse (request_read req) = Raised e ->
  catch_decode_errors (exn_type e) = true ->
  submit_handler now req w =
  (Returned
     (json_response
        (JDict [ ("status", JStr "ok");
                 ("message", JStr "Submission processed successfully");
                 ("bytes_received", JInt (len (request_read req))) ])
        200),
   {| nft_store := nft_store w; next_token_id := next_token_id w;
      logged :=
        (logged w
         ++ [ LogReceived (len (request_read req))
                (str_or (dict_get "X-Forwarded-From" (request_headers req))
                   (fun s => s) "unknown source");
              LogRawData (len (request_read req)) ])%list |}).
Proof.
  intros Hdec Hcatch. unfold submit_handler, decode_and_parse in *.
  run_handler.
  destruct (bytes_decode_utf8 (request_read req)) as [json_str|e'].
  - rewrite Hdec. simpl. rewrite Hcatch. simpl.
    now rewrite <- app_assoc.
  - injection Hdec as ->. rewrite Hcatch. simpl.
    now rewrite <- app_assoc.
Qed.

Lemma submit_handler_error now req w e :
  decode_and_parse (request_read req) = Raised e ->
  catch_decode_errors (exn_type e) = false ->
  submit_handler now req w =
  (Returned
     (json_response
        (JDict [ ("status", JStr "error"); ("message", JStr (exn_str e)) ])
        500),
   {| nft_store := nft_store w; next_token_id := next_token_id w;
      logged :=
        (logged w
         ++ [ LogReceived (len (request_read req))
                (str_or (dict_get "X-Forwarded-From" (request_headers req))
                   (fun s => s) "unknown source");
              LogException "Unexpected error processing submission" e
            ])%list |}).
Proof.
  intros Hdec Hcatch. unfold submit_handler, decode_and_parse in *.
  run_handler.
  destruct (bytes_decode_utf8 (request_read req)) as [json_str|e'].
  - rewrite Hdec. simpl. rewrite Hcatch. simpl.
    now rewrite <- app_assoc.
  - injection Hdec as ->. rewrite Hcatch. simpl.
    now rewrite <- app_assoc.
Qed.

Lemma submit_handler_ignored now req w j :
  decode_and_parse (request_read req) = Returned j ->
  (forall d, j = JDict d -> mint_shaped d = false) ->
  submit_handler now req w =
  (Returned
     (json_response
        (JDict [ ("status", JStr "ok");
                 ("message", JStr "Submission processed successfully");
                 ("bytes_received", JInt (len (request_read req))) ])
        200),
   {| nft_store := nft_store w; next_token_id := next_token_id w;
      logged :=
        (logged w
         ++ [ LogReceived (len (request_read req))
                (str_or (dict_get "X-Forwarded-From" (request_headers req))
                   (fun s => s) "unknown source") ])%list |}).
Proof.
  intros Hdec Hshape. unfold submit_handler, decode_and_parse in *.
  run_handler.
  destruct (bytes_decode_utf8 (request_read req)) as [json_str|e'];
    [|discriminate].
  rewrite Hdec. simpl.
  destruct j; try reflexivity.
  unfold mint_shaped in Hshape. now rewrite (Hshape d eq_refl).
Qed.

Lemma submit_handler_skipped now req w d id w1 :
  decode_and_parse (request_read req) = Returned (JDict d) ->
  mint_shaped d = true ->
  resolve_token_id (dict_get_default "token_id" JNull d) w
  = (Returned id, w1) ->
  dict_contains id (nft_store w) = true ->
  submit_handler now req w =
  (Returned
     (json_response
        (JDict [ ("status", JStr "ok");
                 ("message", JStr "Submission processed successfully");
                 ("bytes_received", JInt (len (request_read req))) ])
        200),
   {| nft_store := nft_store w; next_token_id := next_token_id w1;
      logged :=
        (logged w
         ++ [ LogReceived (len (request_read req))
                (str_or (dict_get "X-Forwarded-From" (request_headers req))
                   (fun s => s) "unknown source");
              LogSkippingMint id ])%list |}).
Proof.
  intros Hdec Hshape Hres Hin. unfold submit_handler, decode_and_parse in *.
  run_handler.
  destruct (bytes_decode_utf8 (request_read req)) as [json_str|e'];
    [|discriminate].
  rewrite Hdec. simpl. unfold mint_shaped in Hshape. rewrite Hshape.
  unfold bind.
  destruct (truthy (dict_get_default "token_id" JNull d)) eqn:Ht.
  - rewrite resolve_token_id_explicit in * by assumption.
    injection Hres as <- <-. simpl. rewrite Hin. simpl.
    now rewrite <- app_assoc.
  - rewrite resolve_token_id_auto in * by assumption.
    injection Hres as <- <-. simpl. rewrite Hin. simpl.
    now rewrite <- app_assoc.
Qed.

Lemma submit_handler_created now req w d id w1 :
  decode_and_parse (request_read req) = Returned (JDict d) ->
  mint_shaped d = true ->
  resolve_token_id (dict_get_default "token_id" JNull d) w
  = (Returned id, w1) ->
  dict_contains id (nft_store w) = false ->
  let owner :=
    str_or (dict_get "X-User" (request_headers req)) JStr
      (dict_get_default "owner" (JStr "unknown") d) in
  submit_handler now req w =
  (Returned
     (json_response
        (JDict [ ("status", JStr "ok");
                 ("message", JStr "Submission processed successfully");
                 ("bytes_received", JInt (len (request_read req))) ])
        200),
   {| nft_store :=
        dict_set id
          {| owner := owner;
             metadata := dict_get_default "metadata" (JDict []) d;
             minted_at := now |}
          (nft_store w);
      next_token_id := next_token_id w1;
      logged :=
        (logged w
         ++ [ LogReceived (len (request_read req))
                (str_or (dict_get "X-Forwarded-From" (request_headers req))
                   (fun s => s) "unknown source");
              LogMintedFromSubmission id owner ])%list |}).
Proof.
  intros Hdec Hshape Hres Hin. unfold submit_handler, decode_and_parse in *.
  run_handler.
  destruct (bytes_decode_utf8 (request_read req)) as [json_str|e'];
    [|discriminate].
  rewrite Hdec. simpl. unfold mint_shaped in Hshape. rewrite Hshape.
  unfold bind.
  destruct (truthy (dict_get_default "token_id" JNull d)) eqn:Ht.
  - rewrite resolve_token_id_explicit in * by assumption.
    injection Hres as <- <-. simpl. rewrite Hin. simpl.
    now rewrite <- app_assoc.
  - rewrite resolve_token_id_auto in * by assumption.
    injection Hres as <- <-. simpl. rewrite Hin. simpl.
    now rewrite <- app_assoc.
Qed.
End Cases.

(* ------------------------------------------------------------------ *)
(** ** What one call does to the globals                               *)
(* ------------------------------------------------------------------ *)

Lemma minted_ids_app (l l' : list log_record) :
  minted_ids (l ++ l') = (minted_ids l ++ minted_ids l')%list.
Proof. unfold minted_ids. apply flat_map_app. Qed.

Section Effects.
Context `{Runtime}.
Implicit Types (w : world) (c : call) (cs : list call).

Lemma mint_nft_effect now req w :
  exists r w',
    mint_nft now req w = (Returned r, w') /\
    effect_of (Call POST_mint now req) w r w'.
Proof.
  unfold effect_of, auto_generating, explicit_id, mint_body. simpl.
  destruct (request_json req) as [[| | | | | |d]|e] eqn:Hreq;
    try (destruct (mint_nft_failed now req w) as [e' ->];
         [ intros d; congruence
         | eexists _, _; split; [reflexivity|]; simpl; split; [lia|];
           left; split; auto; rewrite minted_ids_app; simpl;
           now rewrite app_nil_r ]).
  destruct (resolve_token_id_returns (dict_get_default "token_id" JNull d) w)
    as (id & w1 & Hres & Hst & Hlog & Hn & Hid).
  destruct (dict_contains id (nft_store w1)) eqn:Hin.
  - rewrite (mint_nft_conflict now req w d id w1 Hreq Hres Hin).
    eexists _, _; split; [reflexivity|]. split.
    + rewrite Hn. now destruct (truthy _).
    + left. now rewrite Hst, Hlog.
  - rewrite (mint_nft_created now req w d id w1 Hreq Hres Hin).
    eexists _, _; split; [reflexivity|]. simpl. split.
    + rewrite Hn. now destruct (truthy _).
    + right. eexists id, _. rewrite Hst in *.
      split; [now apply dict_contains_false|].
      split; [reflexivity|].
      split; [rewrite minted_ids_app, Hlog; reflexivity|].
      destruct (truthy _); simpl; [left|right]; auto.
Qed.

Lemma submit_handler_effect now req w :
  exists r w',
    submit_handler now req w = (Returned r, w') /\
    effect_of (Call POST_submit now req) w r w'.
Proof.
  unfold effect_of, auto_generating, explicit_id, mint_body. simpl.
  destruct (decode_and_parse (request_read req)) as [j|e] eqn:Hdec.
  - assert (Hcase : (exists d, j = JDict d /\ mint_shaped d = true) \/
                    (forall d, j = JDict d -> mint_shaped d = false)).
    { destruct j; try (right; intros; discriminate).
      destruct (mint_shaped d) eqn:Hs; [left; eauto|].
      right. now intros d' [= <-]. }
    destruct Hcase as [(d & -> & Hshape)|Hshape].
    + rewrite Hshape.
      destruct (resolve_token_id_returns
                  (dict_get_default "token_id" JNull d) w)
        as (id & w1 & Hres & Hst & Hlog & Hn & Hid).
      destruct (dict_contains id (nft_store w)) eqn:Hin.
      * rewrite (submit_handler_skipped now req w d id w1 Hdec Hshape Hres Hin).
        eexists _, _; split; [reflexivity|]. simpl. split.
        -- rewrite Hn. now destruct (truthy _).
        -- left. split; auto. rewrite minted_ids_app. simpl.
           now rewrite app_nil_r.
      * rewrite (submit_handler_created now req w d id w1 Hdec Hshape Hres Hin).
        eexists _, _; split; [reflexivity|]. simpl. split.
        -- rewrite Hn. now destruct (truthy _).
        -- right. eexists id, _.
           split; [now apply dict_contains_false|].
           split; [reflexivity|].
           split; [rewrite minted_ids_app; reflexivity|].
           destruct (truthy _); simpl; [left|right]; auto.
    + rewrite (submit_handler_ignored now req w j Hdec Hshape).
      eexists _, _; split; [reflexivity|]. simpl. split.
      * destruct j; try lia. rewrite (Hshape d eq_refl). lia.
      * left. split; auto. rewrite minted_ids_app. simpl.
        now rewrite app_nil_r.
  - destruct (catch_decode_errors (exn_type e)) eqn:Hcatch.
    + rewrite (submit_handler_opaque now req w e Hdec Hcatch).
      eexists _, _; split; [reflexivity|]. simpl. split; [lia|].
      left. split; auto. rewrite minted_ids_app. simpl.
      now rewrite app_nil_r.
    + rewrite (submit_handler_error now req w e Hdec Hcatch).
      eexists _, _; split; [reflexivity|]. simpl. split; [lia|].
      left. split; auto. rewrite minted_ids_app. simpl.
      now rewrite app_nil_r.
Qed.

(** The read-only handlers leave the world as it is. *)
Lemma health_world now req w : snd (health now req w) = w.
Proof. reflexivity. Qed.

Lemma list_nfts_world req w : snd (list_nfts req w) = w.
Proof. reflexivity. Qed.

Lemma options_handler_world req w : snd (options_handler req w) = w.
Proof. reflexivity. Qed.

Lemma get_nft_returns req w :
  exists r, get_nft req w = (Returned r, w).
Proof.
  unfold get_nft.
  destruct (dict_get "token_id" (request_match_info req)) as [[|a s]|];
    try (eexists; reflexivity).
  run_handler.
  destruct (dict_contains (String a s) (nft_store w)) eqn:Hin; simpl.
  - apply dict_contains_true in Hin as [v Hv]. rewrite Hv.
    eexists; reflexivity.
  - eexists; reflexivity.
Qed.

(** Every call is answered (no handler lets an exception escape), with
    the effect described by [effect_of]. *)
Lemma serve_effect c w :
  exists r w', serve c w = (Returned r, w') /\ effect_of c w r w'.
Proof.
  destruct c as [[] now req]; unfold serve; simpl.
  - eexists _, w. split; [reflexivity|].
    split; [simpl; lia | left; auto].
  - apply mint_nft_effect.
  - eexists _, w. split; [reflexivity|].
    split; [simpl; lia | left; auto].
  - destruct (get_nft_returns req w) as [r ->].
    eexists _, w. split; [reflexivity|].
    split; [simpl; lia | left; auto].
  - apply submit_handler_effect.
  - eexists _, w. split; [reflexivity|].
    split; [simpl; lia | left; auto].
Qed.

Lemma world_after_nil w : world_after [] w = w.
Proof. reflexivity. Qed.

Lemma world_after_cons c cs w :
  world_after (c :: cs) w = world_after cs (snd (serve c w)).
Proof.
  unfold world_after. simpl.
  destruct (serve c w) as [r w']. simpl.
  now destruct (serve_all cs w').
Qed.

Lemma world_after_app cs cs' w :
  world_after (cs ++ cs') w = world_after cs' (world_after cs w).
Proof.
  revert w. induction cs as [|c cs IH]; intros w; simpl; auto.
  now rewrite !world_after_cons, IH.
Qed.
End Effects.

(* ------------------------------------------------------------------ *)
(** ** Invariants of a run                                             *)
(* ------------------------------------------------------------------ *)

Section Runs.
Context `{Runtime}.
Implicit Types (w : world) (c : call) (cs : list call).

(** A call adds at most one key, at the end, and logs it as minted. *)
Lemma effect_keys c w r w' :
  effect_of c w r w' ->
  exists new,
    dict_keys (nft_store w') = (dict_keys (nft_store w) ++ new)%list /\
    minted_ids (logged w') = (minted_ids (logged w) ++ new)%list /\
    (new = [] \/
     exists id, new = [id] /\ ~ In id (dict_keys (nft_store w)) /\
                (In id (explicit_id c) \/
                 (auto_generating c = true /\
                  id = str_of_int (next_token_id w)))).
Proof.
  intros [_ [[Hst Hlog]|(id & rec & Hfresh & Hst & Hlog & Hid)]].
  - exists []. rewrite Hst, Hlog, !app_nil_r. auto.
  - exists [id]. rewrite Hst, Hlog, dict_keys_set_fresh by assumption.
    repeat split. right. exists id. repeat split; auto.
    intros Hin. apply dict_contains_keys in Hin.
    apply dict_contains_false in Hfresh. congruence.
Qed.

Lemma effect_lookup c w r w' id v :
  effect_of c w r w' ->
  dict_get id (nft_store w) = Some v -> dict_get id (nft_store w') = Some v.
Proof.
  intros [_ [[Hst _]|(id' & rec & Hfresh & Hst & _)]] Hget; rewrite Hst; auto.
  rewrite dict_get_set_other; auto. intros ->. congruence.
Qed.

Lemma count_auto_cons c cs :
  count_auto (c :: cs) = (if auto_generating c then 1 else 0) + count_auto cs.
Proof.
  unfold count_auto. cbn [filter].
  destruct (auto_generating c); cbn [List.length]; lia.
Qed.

(** The counter counts the generated ids. *)
Lemma counter_after cs w :
  next_token_id (world_after cs w) = next_token_id w + count_auto cs.
Proof.
  revert w. induction cs as [|c cs IH]; intros w.
  - rewrite world_after_nil. unfold count_auto. simpl. lia.
  - rewrite world_after_cons, count_auto_cons.
    destruct (serve_effect c w) as (r & w' & Hs & Hn & _).
    rewrite Hs. simpl. rewrite IH, Hn. lia.
Qed.

(** Records stay what they are. *)
Lemma lookup_after cs w id v :
  dict_get id (nft_store w) = Some v ->
  dict_get id (nft_store (world_after cs w)) = Some v.
Proof.
  revert w. induction cs as [|c cs IH]; intros w Hget; auto.
  rewrite world_after_cons.
  destruct (serve_effect c w) as (r & w' & Hs & He).
  rewrite Hs. simpl. apply IH. eapply effect_lookup; eauto.
Qed.

(** The keys of the table are the ids logged as minted, in that order. *)
Lemma keys_after cs w :
  dict_keys (nft_store w) = minted_ids (logged w) ->
  dict_keys (nft_store (world_after cs w))
  = minted_ids (logged (world_after cs w)).
Proof.
  revert w. induction cs as [|c cs IH]; intros w Hk; auto.
  rewrite world_after_cons.
  destruct (serve_effect c w) as (r & w' & Hs & He).
  rewrite Hs. simpl. apply IH.
  destruct (effect_keys c w r w' He) as (new & -> & -> & _).
  now rewrite Hk.
Qed.

(** No id names two records. *)
Lemma effect_NoDup c w r w' :
  effect_of c w r w' ->
  NoDup (dict_keys (nft_store w)) -> NoDup (dict_keys (nft_store w')).
Proof.
  intros He Hnd.
  destruct (effect_keys c w r w' He)
    as (new & -> & _ & [->|(id & -> & Hfresh & _)]).
  - now rewrite app_nil_r.
  - apply NoDup_app; auto.
    + constructor; [simpl; tauto | constructor].
    + intros x Hin [<-|[]]. contradiction.
Qed.

Lemma keys_NoDup_after cs w :
  NoDup (dict_keys (nft_store w)) ->
  NoDup (dict_keys (nft_store (world_after cs w))).
Proof.
  revert w. induction cs as [|c cs IH]; intros w Hnd; auto.
  rewrite world_after_cons.
  destruct (serve_effect c w) as (r & w' & Hs & He).
  rewrite Hs. simpl. apply IH. eapply effect_NoDup; eauto.
Qed.

(** Where the ids come from: each key was supplied by an earlier call or
    is the decimal of a counter value already consumed. *)
Lemma keys_origin_after cs w (E : list str) (n0 : Z) :
  n0 <= next_token_id w ->
  (forall k, In k (dict_keys (nft_store w)) ->
             In k E \/ exists j, n0 <= j < next_token_id w /\
                                 k = str_of_int j) ->
  forall k, In k (dict_keys (nft_store (world_after cs w))) ->
            In k (E ++ explicit_ids cs)
            \/ exists j, n0 <= j < next_token_id (world_after cs w) /\
                         k = str_of_int j.
Proof.
  revert w E. induction cs as [|c cs IH]; intros w E Hn0 Hinv k Hk.
  - rewrite world_after_nil in *. unfold explicit_ids. simpl.
    rewrite app_nil_r. auto.
  - rewrite world_after_cons in *.
    destruct (serve_effect c w) as (r & w' & Hs & He).
    rewrite Hs in *. simpl in *.
    unfold explicit_ids. simpl.
    rewrite app_assoc. fold (explicit_ids cs).
    pose proof He as [Hn _].
    assert (Hmono : next_token_id w <= next_token_id w')
      by (rewrite Hn; destruct (auto_generating c); lia).
    apply (IH w' (E ++ explicit_id c)%list); auto; [lia|].
    clear k Hk. intros k Hk.
    destruct (effect_keys c w r w' He)
      as (new & Hkeys & _ & [->|(id & -> & _ & Hid)]);
      rewrite Hkeys in Hk; apply in_app_or in Hk.
    + destruct Hk as [Hk|[]].
      destruct (Hinv k Hk) as [HE|(j & Hj & ->)].
      * left. apply in_or_app. auto.
      * right. exists j. split; auto. lia.
    + destruct Hk as [Hk|[<-|[]]].
      * destruct (Hinv k Hk) as [HE|(j & Hj & ->)].
        -- left. apply in_or_app. auto.
        -- right. exists j. split; auto. lia.
      * destruct Hid as [Hid|[Hauto ->]].
        -- left. apply in_or_app. auto.
        -- right. exists (next_token_id w). split; auto.
           rewrite Hn, Hauto. lia.
Qed.
End Runs.

(* ------------------------------------------------------------------ *)
(** ** The handlers on concrete calls                                  *)
(* ------------------------------------------------------------------ *)

(** Three mints without [token_id] are answered with ids 1, 2 and 3. *)
Example three_mints_ids :
  map (fun o => match o with
                | Returned r => field "token_id" r
                | Raised _ => None
                end)
      (fst (serve_all (H := example_runtime)
              [ mint_call "t0" (JDict []);
                mint_call "t1" (JDict [("owner", JStr "ann")]);
                mint_call "t2" (JDict [("token_id", JInt 0)]) ]
              initial_world))
  = [Some (JStr "1"); Some (JStr "2"); Some (JStr "3")].
Proof. reflexivity. Qed.

(** Ids are coerced with [str]: the number 7 and the string ["7"] are the
    same id, [true] is the id ["True"]. *)
Example coerced_ids :
  dict_keys
    (nft_store
       (world_after (H := example_runtime)
          [ mint_call "t0" (JDict [("token_id", JInt 7)]);
            mint_call "t1" (JDict [("token_id", JStr "7")]);
            mint_call "t2" (JDict [("token_id", JBool true)]) ]
          initial_world))
  = ["7"; "True"].
Proof. reflexivity. Qed.

(** A body that is a JSON list ends in the [except] clause of [mint_nft]. *)
Example mint_list_body :
  fst (mint_nft (H := example_runtime) "t0" (json_request (JList []))
         initial_world)
  = Returned
      (json_response
         (JDict [ ("status", JStr "error");
                  ("message",
                   JStr "'list' object has no attribute 'get'") ])
         500).
Proof. reflexivity. Qed.

(** The listing after a mint and a submission. *)
Example listing_two_records :
  fst (list_nfts (path_request [])
         (world_after (H := example_runtime)
            [ mint_call "t0" (JDict [("owner", JStr "ann")]);
              submit_call "t1" text_token7 [("X-User", "alice")] ]
            initial_world))
  = Returned
      (json_response
         (JDict
            [ ("status", JStr "ok");
              ("count", JInt 2);
              ("nfts",
               JList
                 [ JDict [ ("token_id", JStr "1");
                           ("owner", JStr "ann");
                           ("metadata", JDict []);
                           ("minted_at", JStr "t0") ];
                   JDict [ ("token_id", JStr "7");
                           ("owner", JStr "alice");
                           ("metadata", JDict [("x", JInt 1)]);
                           ("minted_at", JStr "t1") ] ]) ])
         200).
Proof. reflexivity. Qed.

(** A payload without [token_id], submitted twice, makes two records. *)
Example metadata_only_twice :
  dict_keys
    (nft_store
       (world_after (H := example_runtime)
          [ submit_call "t0" text_metadata_only [];
            submit_call "t1" text_metadata_only [] ]
          initial_world))
  = ["1"; "2"].
Proof. reflexivity. Qed.

(** What the logger has written after a submission and its repetition. *)
Example log_of_repeated_submission :
  logged
    (world_after (H := example_runtime)
       [ submit_call "t0" text_token7 [("X-Forwarded-From", "core-lane")];
         submit_call "t1" text_token7 [] ]
       initial_world)
  = [ LogReceived 35 "core-lane";
      LogMintedFromSubmission "7" (JStr "unknown");
      LogReceived 35 "unknown source";
      LogSkippingMint "7" ].
Proof. reflexivity. Qed.

Example log_messages_of_repeated_submission :
  map (log_message (H := example_runtime))
    (logged
       (world_after (H := example_runtime)
          [ submit_call "t0" text_token7 [("X-Forwarded-From", "core-lane")];
            submit_call "t1" text_token7 [] ]
          initial_world))
  = [ "Received 35 bytes from core-lane";
      "Minted NFT from core-lane submission: token_id=7, owner=unknown";
      "Received 35 bytes from unknown source";
      "Token 7 already exists, skipping mint" ].
Proof. reflexivity. Qed.

(* ------------------------------------------------------------------ *)
(** ** Generated ids                                                   *)
(* ------------------------------------------------------------------ *)

(** An id supplied by an earlier call makes the generated id collide:
    after a mint with [token_id = "1"], a mint without [token_id]
    generates ["1"], finds it in the table and is refused. *)
Lemma generated_id_collides :
  let w := world_after (H := example_runtime)
             [mint_call "t0" (JDict [("token_id", JStr "1")])] initial_world in
  str_of_int (next_token_id w) = "1" /\
  dict_contains "1" (nft_store w) = true /\
  serve (H := example_runtime) (mint_call "t1" (JDict [])) w =
  (Returned
     (json_response
        (JDict [ ("status", JStr "error");
                 ("message", JStr "Token ID 1 already exists") ])
        400),
   {| nft_store := nft_store w; next_token_id := 2; logged := logged w |}).
Proof. vm_compute. repeat split. Qed.

Section GeneratedIds.
Context `{Runtime}.

(** C1 (amended). After any run [cs] from the initial state, a mint whose
    body has no [token_id] (or a falsy one) is given the decimal of
    [1 + k], where [k] is the number of earlier calls that had an id
    generated; the counter moves on by one whether the mint succeeds or
    not, and a mint with an id of its own leaves the counter alone.  The
    generated id is refused as a duplicate only when an earlier call
    supplied that very id itself: it never collides with an id generated
    before. *)
Theorem generated_ids_in_order cs now req d :
  request_json req = Returned (JDict d) ->
  let w := world_after cs initial_world in
  let token_id := dict_get_default "token_id" JNull d in
  exists r w',
    mint_nft now req w = (Returned r, w') /\
    (truthy token_id = true -> next_token_id w' = next_token_id w) /\
    (truthy token_id = false ->
     let id := str_of_int (1 + count_auto cs) in
     next_token_id w' = 1 + count_auto cs + 1 /\
     ((dict_contains id (nft_store w) = false /\
       status r = 200 /\
       field "token_id" r = Some (JStr id) /\
       dict_get id (nft_store w') =
       Some {| owner := dict_get_default "owner" (JStr "unknown") d;
               metadata := dict_get_default "metadata" (JDict []) d;
               minted_at := now |})
      \/
      (dict_contains id (nft_store w) = true /\
       In id (explicit_ids cs) /\
       status r = 400 /\
       field "message" r
       = Some (JStr ("Token ID " ++ id ++ " already exists")) /\
       nft_store w' = nft_store w))).
Proof.
  intros Hreq w token_id.
  assert (Hcnt : next_token_id w = 1 + count_auto cs)
    by (unfold w; now rewrite counter_after).
  destruct (resolve_token_id_returns token_id w)
    as (id & w1 & Hres & Hst & Hlog & Hn & Hid).
  destruct (dict_contains id (nft_store w1)) eqn:Hin.
  - rewrite (mint_nft_conflict now req w d id w1 Hreq Hres Hin).
    eexists _, _. split; [reflexivity|]. split.
    + intros Ht. rewrite Hn, Ht. lia.
    + intros Ht. rewrite Ht in Hn, Hid. rewrite Hcnt in Hid. subst id.
      split; [lia|]. right. rewrite Hst in Hin.
      repeat split; auto.
      apply dict_contains_keys in Hin.
      assert (Horigin :
                In (str_of_int (1 + count_auto cs)) ([] ++ explicit_ids cs)
                \/ exists j, 1 <= j < next_token_id w /\
                             str_of_int (1 + count_auto cs) = str_of_int j).
      { apply (keys_origin_after cs initial_world [] 1); simpl;
          [lia | tauto | exact Hin]. }
      destruct Horigin as [Hex|(j & Hj & Heq)]; auto.
      apply str_of_int_inj in Heq. lia.
  - rewrite (mint_nft_created now req w d id w1 Hreq Hres Hin).
    eexists _, _. split; [reflexivity|]. cbn [next_token_id nft_store]. split.
    + intros Ht. rewrite Hn, Ht. lia.
    + intros Ht. rewrite Ht in Hn, Hid. rewrite Hcnt in Hid. subst id.
      split; [lia|]. left. rewrite Hst in *.
      repeat split; auto. apply dict_get_set_same.
Qed.
End GeneratedIds.

(** The third mint without [token_id] is given ["3"]. *)
Lemma generated_ids_in_order_witness :
  request_json (json_request (JDict [])) = Returned (JDict []) /\
  exists r w',
    mint_nft (H := example_runtime) "t2" (json_request (JDict []))
      (world_after (H := example_runtime)
         [mint_call "t0" (JDict []); mint_call "t1" (JDict [])] initial_world)
    = (Returned r, w') /\
    field "token_id" r = Some (JStr "3") /\ next_token_id w' = 4.
Proof.
  split; [reflexivity|].
  destruct (@generated_ids_in_order example_runtime
              [mint_call "t0" (JDict []); mint_call "t1" (JDict [])]
              "t2" (json_request (JDict [])) [] eq_refl)
    as (r & w' & Hrun & _ & Hauto).
  exists r, w'. split; [exact Hrun|].
  destruct (Hauto eq_refl) as [Hn [(_ & _ & Hf & _)|(Hin & _)]].
  - split; [exact Hf | exact Hn].
  - vm_compute in Hin. discriminate Hin.
Defined.

(* ------------------------------------------------------------------ *)
(** ** Duplicate ids                                                   *)
(* ------------------------------------------------------------------ *)

Section Duplicates.
Context `{Runtime}.

(** C2. A mint whose id, supplied or generated, is already in the table is
    answered with status 400 and the message [Token ID <id> already
    exists]; the table is left as it was, record for record; the failure
    changes nothing of what id resolution left: the counter is the one
    before the call when the id was supplied, and one more when it was
    generated. *)
Theorem mint_duplicate_refused now req w d id w1 :
  request_json req = Returned (JDict d) ->
  resolve_token_id (dict_get_default "token_id" JNull d) w
  = (Returned id, w1) ->
  dict_contains id (nft_store w) = true ->
  exists r w',
    mint_nft now req w = (Returned r, w') /\
    status r = 400 /\
    field "status" r = Some (JStr "error") /\
    field "message" r = Some (JStr ("Token ID " ++ id ++ " already exists")) /\
    nft_store w' = nft_store w /\
    (forall k, dict_get k (nft_store w') = dict_get k (nft_store w)) /\
    w' = w1 /\
    next_token_id w' =
    next_token_id w
    + (if truthy (dict_get_default "token_id" JNull d) then 0 else 1) /\
    logged w' = logged w.
Proof.
  intros Hreq Hres Hin.
  destruct (resolve_token_id_returns (dict_get_default "token_id" JNull d) w)
    as (id' & w1' & Hres' & Hst & Hlog & Hn & _).
  rewrite Hres in Hres'. injection Hres' as <- <-.
  rewrite <- Hst in Hin.
  rewrite (mint_nft_conflict now req w d id w1 Hreq Hres Hin).
  exists (json_response
            (JDict [ ("status", JStr "error");
                     ("message",
                      JStr ("Token ID " ++ id ++ " already exists")) ])
            400), w1.
  repeat split; auto. intros k. now rewrite Hst.
Qed.

(** C3. A submission whose payload parses to a mint-shaped object is
    acknowledged with status 200 and the byte count, whether or not its id
    is in the table; when the id is there the table is left as it was and
    the skip is logged.  Submitted a second time, the same request is
    acknowledged again, the record under the id of the first submission is
    the one the first submission left, and the table holds exactly one
    record under that id. *)
Theorem submit_duplicate_skipped now now' req w d id w1 :
  NoDup (dict_keys (nft_store w)) ->
  decode_and_parse (request_read req) = Returned (JDict d) ->
  mint_shaped d = true ->
  resolve_token_id (dict_get_default "token_id" JNull d) w
  = (Returned id, w1) ->
  let ack :=
    json_response
      (JDict [ ("status", JStr "ok");
               ("message", JStr "Submission processed successfully");
               ("bytes_received", JInt (len (request_read req))) ])
      200 in
  exists wa wb,
    submit_handler now req w = (Returned ack, wa) /\
    submit_handler now' req wa = (Returned ack, wb) /\
    (dict_contains id (nft_store w) = true ->
     nft_store wa = nft_store w /\ In (LogSkippingMint id) (logged wa)) /\
    dict_contains id (nft_store wa) = true /\
    dict_get id (nft_store wb) = dict_get id (nft_store wa) /\
    count_occ string_dec (dict_keys (nft_store wb)) id = 1%nat /\
    (truthy (dict_get_default "token_id" JNull d) = true ->
     nft_store wb = nft_store wa).
Proof.
  intros Hnd Hdec Hshape Hres ack.
  destruct (submit_handler_effect now req w) as (r1 & wa & Hs1 & He1).
  destruct (submit_handler_effect now' req wa) as (r2 & wb & Hs2 & He2).
  exists wa, wb.
  (* the first submission *)
  assert (H1 : r1 = ack /\
               (dict_contains id (nft_store w) = true ->
                nft_store wa = nft_store w /\
                In (LogSkippingMint id) (logged wa)) /\
               dict_contains id (nft_store wa) = true).
  { destruct (dict_contains id (nft_store w)) eqn:Hin.
    - rewrite (submit_handler_skipped now req w d id w1 Hdec Hshape Hres Hin)
        in Hs1.
      injection Hs1 as <- <-. simpl. repeat split; auto.
      apply in_or_app. right. simpl. auto.
    - rewrite (submit_handler_created now req w d id w1 Hdec Hshape Hres Hin)
        in Hs1.
      injection Hs1 as <- <-. simpl. repeat split; try discriminate.
      apply dict_contains_true. eexists. apply dict_get_set_same. }
  destruct H1 as (-> & Hskip & Hina).
  (* the second one *)
  assert (Hnda : NoDup (dict_keys (nft_store wa)))
    by (eapply effect_NoDup; eauto).
  assert (Hndb : NoDup (dict_keys (nft_store wb)))
    by (eapply effect_NoDup; eauto).
  apply dict_contains_true in Hina as Hgeta. destruct Hgeta as [v Hv].
  assert (Hgetb : dict_get id (nft_store wb) = Some v)
    by (eapply effect_lookup; eauto).
  assert (H2 : r2 = ack /\
               (truthy (dict_get_default "token_id" JNull d) = true ->
                nft_store wb = nft_store wa)).
  { destruct (resolve_token_id_returns
                (dict_get_default "token_id" JNull d) wa)
      as (id2 & w2 & Hres2 & _ & _ & _ & Hid2).
    destruct (resolve_token_id_returns
                (dict_get_default "token_id" JNull d) w)
      as (id1 & w1' & Hres1 & _ & _ & _ & Hid1).
    rewrite Hres in Hres1. injection Hres1 as <- <-.
    destruct (dict_contains id2 (nft_store wa)) eqn:Hin2.
    - rewrite (submit_handler_skipped now' req wa d id2 w2 Hdec Hshape
                 Hres2 Hin2) in Hs2.
      injection Hs2 as <- <-. simpl. auto.
    - rewrite (submit_handler_created now' req wa d id2 w2 Hdec Hshape
                 Hres2 Hin2) in Hs2.
      injection Hs2 as <- <-. simpl. split; auto.
      intros Ht. rewrite Ht in Hid1, Hid2. congruence. }
  destruct H2 as (-> & Hsame).
  split; [exact Hs1|]. split; [exact Hs2|]. split; [exact Hskip|].
  split; [exact Hina|]. split; [congruence|]. split; [|exact Hsame].
  apply NoDup_count_occ'; auto.
  apply dict_contains_keys. apply dict_contains_true. eauto.
Qed.
End Duplicates.

(** A second mint of ["7"] is refused and the first record stays. *)
Lemma mint_duplicate_refused_witness :
  let w := world_after (H := example_runtime)
             [mint_call "t0" (JDict [("token_id", JStr "7");
                                     ("owner", JStr "ann")])]
             initial_world in
  let req := json_request (JDict [("token_id", JStr "7");
                                  ("owner", JStr "bob")]) in
  dict_contains "7" (nft_store w) = true /\
  exists r w',
    mint_nft (H := example_runtime) "t1" req w = (Returned r, w') /\
    status r = 400 /\
    field "message" r = Some (JStr "Token ID 7 already exists") /\
    dict_get "7" (nft_store w')
    = Some {| owner := JStr "ann"; metadata := JDict []; minted_at := "t0" |}.
Proof.
  intros w req. split; [reflexivity|].
  destruct (@mint_duplicate_refused example_runtime "t1" req w
              [("token_id", JStr "7"); ("owner", JStr "bob")] "7" w
              eq_refl eq_refl eq_refl)
    as (r & w' & Hrun & Hst & _ & Hmsg & _ & Hget & _).
  exists r, w'. split; [exact Hrun|]. split; [exact Hst|].
  split; [exact Hmsg|]. exact (Hget "7").
Defined.

(** The payload [{"token_id":"7","metadata":{"x":1}}] submitted twice. *)
Lemma submit_duplicate_skipped_witness :
  let req := raw_request (list_byte_of_string text_token7)
               [("X-User", "alice")] in
  exists wa wb,
    submit_handler (H := example_runtime) "t0" req initial_world
    = (Returned
         (json_response
            (JDict [ ("status", JStr "ok");
                     ("message", JStr "Submission processed successfully");
                     ("bytes_received", JInt 35) ])
            200), wa) /\
    submit_handler (H := example_runtime) "t1" req wa
    = (Returned
         (json_response
            (JDict [ ("status", JStr "ok");
                     ("message", JStr "Submission processed successfully");
                     ("bytes_received", JInt 35) ])
            200), wb) /\
    count_occ string_dec (dict_keys (nft_store wb)) "7" = 1%nat /\
    nft_store wb = nft_store wa.
Proof.
  intros req.
  destruct (@submit_duplicate_skipped example_runtime "t0" "t1" req
              initial_world
              [("token_id", JStr "7"); ("metadata", JDict [("x", JInt 1)])]
              "7" initial_world
              (NoDup_nil _) eq_refl eq_refl eq_refl)
    as (wa & wb & H1 & H2 & _ & _ & _ & Hcount & Hsame).
  exists wa, wb. repeat split; auto.
Defined.

(* ------------------------------------------------------------------ *)
(** ** The owner of a submitted record                                 *)
(* ------------------------------------------------------------------ *)

(** An [X-User] header that is present but empty is not the owner: the
    payload [{"token_id":"7","owner":"bob"}] submitted with [X-User:]
    creates record ["7"] with owner [bob]. *)
Lemma empty_user_is_not_the_owner :
  let c := submit_call "t0" text_token7_bob [("X-User", "")] in
  dict_get "X-User" (request_headers (call_request c)) = Some "" /\
  nft_store (world_after (H := example_runtime) [c] initial_world)
  = [("7", {| owner := JStr "bob"; metadata := JDict [];
              minted_at := "t0" |})].
Proof. vm_compute. split; reflexivity. Qed.

Section Owner.
Context `{Runtime}.

(** C4 (amended). A submission that creates a record stores as owner the
    [X-User] header if it is present and not empty, else the [owner] field
    of the parsed body, else ["unknown"].  In particular the body
    [{"token_id":"7","metadata":{"x":1}}] with [X-User: alice] creates
    record ["7"] with owner [alice]. *)
Theorem submit_owner_precedence now req w d id w1 :
  decode_and_parse (request_read req) = Returned (JDict d) ->
  mint_shaped d = true ->
  resolve_token_id (dict_get_default "token_id" JNull d) w
  = (Returned id, w1) ->
  dict_contains id (nft_store w) = false ->
  exists r w' stored,
    submit_handler now req w = (Returned r, w') /\
    status r = 200 /\
    dict_get id (nft_store w') = Some stored /\
    owner stored =
    match dict_get "X-User" (request_headers req) with
    | Some (String a u) => JStr (String a u)
    | Some EmptyString | None =>
        match dict_get "owner" d with
        | Some o => o
        | None => JStr "unknown"
        end
    end /\
    metadata stored = dict_get_default "metadata" (JDict []) d /\
    minted_at stored = now /\
    (d = [("token_id", JStr "7"); ("metadata", JDict [("x", JInt 1)])] ->
     dict_get "X-User" (request_headers req) = Some "alice" ->
     id = "7" /\
     stored = {| owner := JStr "alice"; metadata := JDict [("x", JInt 1)];
                 minted_at := now |}).
Proof.
  intros Hdec Hshape Hres Hin.
  rewrite (submit_handler_created now req w d id w1 Hdec Hshape Hres Hin).
  eexists _, _, _. split; [reflexivity|]. split; [reflexivity|].
  cbn [nft_store]. split; [apply dict_get_set_same|].
  cbn [owner metadata minted_at]. split.
  { unfold str_or, dict_get_default.
    destruct (dict_get "X-User" (request_headers req)) as [[|a u]|];
      reflexivity. }
  split; [reflexivity|]. split; [reflexivity|].
  intros -> Huser. rewrite Huser.
  rewrite resolve_token_id_explicit in Hres by reflexivity.
  injection Hres as <- _. split; reflexivity.
Qed.

(** C10. An [X-User] header whose value is the empty string counts as no
    header: the record created has the owner of the body, or ["unknown"]
    when the body has none, and the table is the one that the same
    submission without the header would leave. *)
Theorem empty_user_header_as_absent now req req' w d id w1 :
  decode_and_parse (request_read req) = Returned (JDict d) ->
  mint_shaped d = true ->
  resolve_token_id (dict_get_default "token_id" JNull d) w
  = (Returned id, w1) ->
  dict_contains id (nft_store w) = false ->
  dict_get "X-User" (request_headers req) = Some "" ->
  request_read req' = request_read req ->
  dict_get "X-User" (request_headers req') = None ->
  exists r w' stored,
    submit_handler now req w = (Returned r, w') /\
    dict_get id (nft_store w') = Some stored /\
    owner stored =
    match dict_get "owner" d with
    | Some o => o
    | None => JStr "unknown"
    end /\
    metadata stored = dict_get_default "metadata" (JDict []) d /\
    minted_at stored = now /\
    nft_store (snd (submit_handler now req' w)) = nft_store w'.
Proof.
  intros Hdec Hshape Hres Hin Huser Hread Hnone.
  rewrite (submit_handler_created now req w d id w1 Hdec Hshape Hres Hin).
  rewrite <- Hread in Hdec.
  rewrite (submit_handler_created now req' w d id w1 Hdec Hshape Hres Hin).
  rewrite Huser, Hnone.
  eexists _, _, _. split; [reflexivity|].
  cbn [nft_store snd]. split; [apply dict_get_set_same|].
  repeat split; reflexivity.
Qed.
End Owner.

(** The example of the specification: [X-User: alice] owns record ["7"]. *)
Lemma submit_owner_precedence_witness :
  let req := raw_request (list_byte_of_string text_token7)
               [("X-User", "alice")] in
  exists r w',
    submit_handler (H := example_runtime) "t0" req initial_world
    = (Returned r, w') /\
    status r = 200 /\
    dict_get "7" (nft_store w')
    = Some {| owner := JStr "alice"; metadata := JDict [("x", JInt 1)];
              minted_at := "t0" |}.
Proof.
  intros req.
  destruct (@submit_owner_precedence example_runtime "t0" req initial_world
              [("token_id", JStr "7"); ("metadata", JDict [("x", JInt 1)])]
              "7" initial_world eq_refl eq_refl eq_refl eq_refl)
    as (r & w' & stored & Hrun & Hst & Hget & _ & _ & _ & Hex).
  destruct (Hex eq_refl eq_refl) as [_ ->].
  exists r, w'. split; [exact Hrun|]. split; [exact Hst | exact Hget].
Defined.

(** [{"token_id":"7","owner":"bob"}] with an empty [X-User]. *)
Lemma empty_user_header_as_absent_witness :
  let req := raw_request (list_byte_of_string text_token7_bob)
               [("X-User", "")] in
  let req' := raw_request (list_byte_of_string text_token7_bob) [] in
  exists r w',
    submit_handler (H := example_runtime) "t0" req initial_world
    = (Returned r, w') /\
    dict_get "7" (nft_store w')
    = Some {| owner := JStr "bob"; metadata := JDict [];
              minted_at := "t0" |} /\
    nft_store (snd (submit_handler (H := example_runtime) "t0" req'
                      initial_world))
    = nft_store w'.
Proof.
  intros req req'.
  destruct (@empty_user_header_as_absent example_runtime "t0" req req'
              initial_world
              [("token_id", JStr "7"); ("owner", JStr "bob")]
              "7" initial_world
              eq_refl eq_refl eq_refl eq_refl eq_refl eq_refl eq_refl)
    as (r & w' & [o m t] & Hrun & Hget & Hown & Hmeta & Htime & Hsame).
  cbn in Hown, Hmeta, Htime. subst o m t.
  exists r, w'. split; [exact Hrun|]. split; [exact Hget | exact Hsame].
Defined.

(* ------------------------------------------------------------------ *)
(** ** Lookup                                                          *)
(* ------------------------------------------------------------------ *)

Section Lookup.
Context `{Runtime}.

(** What a mint answered with status 200 has stored. *)
Lemma mint_nft_ok_stored now req w r w' id :
  mint_nft now req w = (Returned r, w') ->
  status r = 200 ->
  field "token_id" r = Some (JStr id) ->
  exists stored,
    dict_get id (nft_store w') = Some stored /\
    field "nft" r = Some (JDict (nft_json stored)) /\
    minted_at stored = now.
Proof.
  intros Hrun Hst Hid.
  destruct (request_json req) as [j|e] eqn:Hreq.
  2:{ destruct (mint_nft_failed now req w) as [e' He'];
        [intros d; congruence|].
      rewrite He' in Hrun. injection Hrun as <- <-. discriminate. }
  assert (Hj : (exists d, j = JDict d) \/
               (forall d, request_json req <> Returned (JDict d))).
  { rewrite Hreq. destruct j; try (right; intros; discriminate).
    left; eauto. }
  destruct Hj as [[d ->]|Hno].
  2:{ destruct (mint_nft_failed now req w Hno) as [e' He'].
      rewrite He' in Hrun. injection Hrun as <- <-. discriminate. }
  destruct (resolve_token_id_returns (dict_get_default "token_id" JNull d) w)
    as (id' & w1 & Hres & _).
  destruct (dict_contains id' (nft_store w1)) eqn:Hin.
  - rewrite (mint_nft_conflict now req w d id' w1 Hreq Hres Hin) in Hrun.
    injection Hrun as <- <-. discriminate.
  - rewrite (mint_nft_created now req w d id' w1 Hreq Hres Hin) in Hrun.
    injection Hrun as <- <-. cbn in Hid. injection Hid as ->.
    eexists. cbn [nft_store]. split; [apply dict_get_set_same|].
    split; reflexivity.
Qed.

(** C5. [get_nft] never touches the table.  Without an id, or with an
    empty one, it answers 400 [Token ID required]; for an id that is not
    in the table, 404 [NFT <id> not found]; otherwise 200 with the id and
    the stored record, field for field, and the answer stays the same
    after any further calls.  For an id that a mint answered with status
    200, these are the fields of that mint's answer. *)
Theorem get_nft_cases req w :
  (exists r,
      get_nft req w = (Returned r, w) /\
      match dict_get "token_id" (request_match_info req) with
      | None | Some EmptyString =>
          r = json_response
                (JDict [ ("status", JStr "error");
                         ("message", JStr "Token ID required") ])
                400
      | Some id =>
          match dict_get id (nft_store w) with
          | None =>
              r = json_response
                    (JDict [ ("status", JStr "error");
                             ("message",
                              JStr ("NFT " ++ id ++ " not found")) ])
                    404
          | Some stored =>
              r = json_response
                    (JDict [ ("status", JStr "ok");
                             ("token_id", JStr id);
                             ("nft",
                              JDict [ ("owner", owner stored);
                                      ("metadata", metadata stored);
                                      ("minted_at",
                                       JStr (minted_at stored)) ]) ])
                    200 /\
              forall cs,
                get_nft req (world_after cs w)
                = (Returned r, world_after cs w)
          end
      end) /\
  (forall now mint_req w0 minted id nft_fields cs,
      mint_nft now mint_req w0 = (Returned minted, w) ->
      status minted = 200 ->
      field "token_id" minted = Some (JStr id) ->
      field "nft" minted = Some nft_fields ->
      dict_get "token_id" (request_match_info req) = Some id ->
      id <> "" ->
      exists r,
        get_nft req (world_after cs w) = (Returned r, world_after cs w) /\
        status r = 200 /\
        field "token_id" r = Some (JStr id) /\
        field "nft" r = Some nft_fields).
Proof.
  assert (Hhit : forall id stored w2,
             dict_get "token_id" (request_match_info req) = Some id ->
             id <> "" ->
             dict_get id (nft_store w2) = Some stored ->
             get_nft req w2 =
             (Returned
                (json_response
                   (JDict [ ("status", JStr "ok");
                            ("token_id", JStr id);
                            ("nft", JDict (nft_json stored)) ])
                   200), w2)).
  { intros id stored w2 Hid Hne Hget. unfold get_nft. rewrite Hid.
    destruct id as [|a s]; [congruence|].
    run_handler. unfold dict_contains. rewrite Hget. simpl.
    now rewrite Hget. }
  split.
  - destruct (dict_get "token_id" (request_match_info req))
      as [[|a s]|] eqn:Hid.
    + eexists. split; [|reflexivity].
      unfold get_nft. now rewrite Hid.
    + assert (Hne : String a s <> "") by discriminate.
      destruct (dict_get (String a s) (nft_store w)) as [stored|] eqn:Hget.
      * eexists. split; [apply (Hhit _ stored w eq_refl Hne Hget)|].
        split; [reflexivity|].
        intros cs. apply (Hhit _ stored _ eq_refl Hne).
        now apply lookup_after.
      * eexists. split; [|reflexivity].
        unfold get_nft. rewrite Hid. run_handler.
        unfold dict_contains. now rewrite Hget.
    + eexists. split; [|reflexivity].
      unfold get_nft. now rewrite Hid.
  - intros now mint_req w0 minted id nft_fields cs Hrun Hst Htid Hnft Hid Hne.
    destruct (mint_nft_ok_stored now mint_req w0 minted w id Hrun Hst Htid)
      as (stored & Hget & Hfields & _).
    rewrite Hfields in Hnft. injection Hnft as <-.
    rewrite (Hhit id stored (world_after cs w) Hid Hne
               (lookup_after cs w id stored Hget)).
    eexists. split; [reflexivity|]. repeat split.
Qed.
End Lookup.

(** A record minted as ["7"] is read back after two more calls. *)
Lemma get_nft_cases_witness :
  let w := snd (mint_nft (H := example_runtime) "t0"
                  (json_request (JDict [("token_id", JStr "7");
                                        ("owner", JStr "ann")]))
                  initial_world) in
  let cs := [mint_call "t1" (JDict []);
             submit_call "t2" text_token7 [("X-User", "alice")]] in
  exists r,
    get_nft (H := example_runtime) (path_request [("token_id", "7")])
      (world_after (H := example_runtime) cs w)
    = (Returned r, world_after (H := example_runtime) cs w) /\
    status r = 200 /\
    field "nft" r
    = Some (JDict [ ("owner", JStr "ann"); ("metadata", JDict []);
                    ("minted_at", JStr "t0") ]).
Proof.
  intros w cs.
  destruct (proj2 (@get_nft_cases example_runtime
                     (path_request [("token_id", "7")]) w)
              "t0"
              (json_request (JDict [("token_id", JStr "7");
                                    ("owner", JStr "ann")]))
              initial_world
              (json_response
                 (JDict [ ("status", JStr "ok");
                          ("message", JStr "NFT minted successfully");
                          ("token_id", JStr "7");
                          ("nft",
                           JDict [ ("owner", JStr "ann");
                                   ("metadata", JDict []);
                                   ("minted_at", JStr "t0") ]) ])
                 200)
              "7"
              (JDict [ ("owner", JStr "ann"); ("metadata", JDict []);
                       ("minted_at", JStr "t0") ])
              cs eq_refl eq_refl eq_refl eq_refl eq_refl)
    as (r & Hrun & Hst & _ & Hnft).
  - discriminate.
  - exists r. split; [exact Hrun|]. split; [exact Hst | exact Hnft].
Defined.

(* ------------------------------------------------------------------ *)
(** ** Submissions that mint nothing                                   *)
(* ------------------------------------------------------------------ *)

Section Opaque.
Context `{Runtime}.

(** C6 (amended). When [decode("utf-8")] or [json.loads] raises on the
    payload, no record is created and table and counter stay as they
    were.  If the exception is a [UnicodeDecodeError] or a
    [JSONDecodeError], the submission is acknowledged with status 200 and
    [bytes_received] equal to the length of the payload; if it is of any
    other class, the answer is 500 with the text of the exception. *)
Theorem submit_undecodable now req w e :
  decode_and_parse (request_read req) = Raised e ->
  exists r w',
    submit_handler now req w = (Returned r, w') /\
    r = match exn_type e with
        | UnicodeDecodeError | JSONDecodeError =>
            json_response
              (JDict [ ("status", JStr "ok");
                       ("message", JStr "Submission processed successfully");
                       ("bytes_received",
                        JInt (Z.of_nat (List.length (request_read req)))) ])
              200
        | _ =>
            json_response
              (JDict [ ("status", JStr "error");
                       ("message", JStr (exn_str e)) ])
              500
        end /\
    nft_store w' = nft_store w /\
    next_token_id w' = next_token_id w /\
    minted_ids (logged w') = minted_ids (logged w).
Proof.
  intros Hdec.
  destruct (catch_decode_errors (exn_type e)) eqn:Hcatch.
  - rewrite (submit_handler_opaque now req w e Hdec Hcatch).
    eexists _, _. split; [reflexivity|]. split.
    + destruct (exn_type e); try discriminate Hcatch; reflexivity.
    + repeat split.
      cbn [logged]. rewrite minted_ids_app. simpl. now rewrite app_nil_r.
  - rewrite (submit_handler_error now req w e Hdec Hcatch).
    eexists _, _. split; [reflexivity|]. split.
    + destruct (exn_type e); try discriminate Hcatch; reflexivity.
    + repeat split.
      cbn [logged]. rewrite minted_ids_app. simpl. now rewrite app_nil_r.
Qed.

(** C9. A payload that parses to JSON that is not an object, or to an
    object with neither a [token_id] nor a [metadata] key, gets the same
    acknowledgement with its byte count; no record is created and the
    counter stays. *)
Theorem submit_not_a_mint now req w j :
  decode_and_parse (request_read req) = Returned j ->
  (forall d, j = JDict d ->
             dict_contains "token_id" d = false /\
             dict_contains "metadata" d = false) ->
  exists r w',
    submit_handler now req w = (Returned r, w') /\
    r = json_response
          (JDict [ ("status", JStr "ok");
                   ("message", JStr "Submission processed successfully");
                   ("bytes_received",
                    JInt (Z.of_nat (List.length (request_read req)))) ])
          200 /\
    nft_store w' = nft_store w /\
    next_token_id w' = next_token_id w /\
    minted_ids (logged w') = minted_ids (logged w).
Proof.
  intros Hdec Hkeys.
  assert (Hshape : forall d, j = JDict d -> mint_shaped d = false).
  { intros d Hd. unfold mint_shaped.
    destruct (Hkeys d Hd) as [-> ->]. reflexivity. }
  rewrite (submit_handler_ignored now req w j Hdec Hshape).
  eexists _, _. split; [reflexivity|]. repeat split.
  cbn [logged]. rewrite minted_ids_app. simpl. now rewrite app_nil_r.
Qed.
End Opaque.

(** A payload that fails to parse and is not acknowledged: on the 5000
    digits [111...1], [json.loads] raises [ValueError], the inner
    [except] clause does not catch it, and the answer is 500. *)
Lemma long_integer_is_not_acknowledged :
  exists msg,
    decode_and_parse (H := limited_runtime) five_thousand_ones
    = Raised (Exn OtherException msg) /\
    fst (submit_handler (H := limited_runtime) "t0"
           (raw_request five_thousand_ones []) initial_world)
    = Returned
        (json_response
           (JDict [ ("status", JStr "error"); ("message", JStr msg) ])
           500).
Proof. eexists. split; vm_compute; reflexivity. Qed.

(** Two bytes that are not UTF-8 are acknowledged; the 5000 digits are
    answered 500; neither creates a record. *)
Lemma submit_undecodable_witness :
  (exists r w',
      submit_handler (H := example_runtime) "t0"
        (raw_request ["255"%byte; "254"%byte] []) initial_world
      = (Returned r, w') /\
      status r = 200 /\
      field "bytes_received" r = Some (JInt 2) /\
      nft_store w' = [] /\ next_token_id w' = 1) /\
  (exists r w',
      submit_handler (H := limited_runtime) "t0"
        (raw_request five_thousand_ones []) initial_world
      = (Returned r, w') /\
      status r = 500 /\
      nft_store w' = [] /\ next_token_id w' = 1).
Proof.
  split.
  - destruct (@submit_undecodable example_runtime "t0"
                (raw_request ["255"%byte; "254"%byte] []) initial_world
                (Exn UnicodeDecodeError "'utf-8' codec can't decode bytes")
                eq_refl)
      as (r & w' & Hrun & -> & Hst & Hn & _).
    eexists; exists w'. split; [exact Hrun|].
    split; [reflexivity|]. split; [reflexivity|].
    split; [exact Hst | exact Hn].
  - destruct (decode_and_parse (H := limited_runtime) five_thousand_ones)
      as [j|e] eqn:Hdec; [vm_compute in Hdec; discriminate Hdec|].
    destruct (@submit_undecodable limited_runtime "t0"
                (raw_request five_thousand_ones []) initial_world e Hdec)
      as (r & w' & Hrun & Hr & Hst & Hn & _).
    exists r, w'. split; [exact Hrun|].
    split; [|split; [exact Hst | exact Hn]].
    vm_compute in Hdec. injection Hdec as <-. rewrite Hr. reflexivity.
Defined.

(** The payloads [[1, 2]] and [{"note":"hi"}]. *)
Lemma submit_not_a_mint_witness :
  (exists r w',
      submit_handler (H := example_runtime) "t0"
        (raw_request (list_byte_of_string text_list) []) initial_world
      = (Returned r, w') /\
      field "bytes_received" r = Some (JInt 6) /\
      nft_store w' = [] /\ next_token_id w' = 1) /\
  (exists r w',
      submit_handler (H := example_runtime) "t0"
        (raw_request (list_byte_of_string text_note) []) initial_world
      = (Returned r, w') /\
      field "bytes_received" r = Some (JInt 13) /\
      nft_store w' = [] /\ next_token_id w' = 1).
Proof.
  split.
  - destruct (@submit_not_a_mint example_runtime "t0"
                (raw_request (list_byte_of_string text_list) [])
                initial_world (JList [JInt 1; JInt 2]) eq_refl)
      as (r & w' & Hrun & -> & Hst & Hn & _).
    + intros d Hd. discriminate Hd.
    + eexists; exists w'. split; [exact Hrun|]. split; [reflexivity|].
      split; [exact Hst | exact Hn].
  - destruct (@submit_not_a_mint example_runtime "t0"
                (raw_request (list_byte_of_string text_note) [])
                initial_world (JDict [("note", JStr "hi")]) eq_refl)
      as (r & w' & Hrun & -> & Hst & Hn & _).
    + intros d Hd. injection Hd as <-. split; reflexivity.
    + eexists; exists w'. split; [exact Hrun|]. split; [reflexivity|].
      split; [exact Hst | exact Hn].
Defined.

(* ------------------------------------------------------------------ *)
(** ** The table over a run                                            *)
(* ------------------------------------------------------------------ *)

Section Table.
Context `{Runtime}.

(** C8. A record that is in the table is there, with the same owner,
    metadata and timestamp, after any call and after any run of calls:
    no handler modifies or deletes it. *)
Theorem records_never_change cs c w id stored :
  dict_get id (nft_store w) = Some stored ->
  dict_get id (nft_store (snd (serve c w))) = Some stored /\
  dict_get id (nft_store (world_after cs w)) = Some stored.
Proof.
  intros Hget. split.
  - change (snd (serve c w)) with (world_after [] (snd (serve c w))).
    rewrite <- world_after_cons. now apply lookup_after.
  - now apply lookup_after.
Qed.
End Table.

(** Record ["7"] of [ann] survives a mint of the same id, a submission of
    the same id, a generated id, a lookup, a listing and a health check. *)
Lemma records_never_change_witness :
  let w := world_after (H := example_runtime)
             [mint_call "t0" (JDict [("token_id", JStr "7");
                                     ("owner", JStr "ann")])]
             initial_world in
  let cs := [ mint_call "t1" (JDict [("token_id", JStr "7");
                                     ("owner", JStr "bob")]);
              submit_call "t2" text_token7 [("X-User", "alice")];
              mint_call "t3" (JDict []);
              Call GET_nft "t4" (path_request [("token_id", "7")]);
              Call GET_nfts "t5" (path_request []);
              Call GET_health "t6" (path_request []) ] in
  dict_get "7" (nft_store w)
  = Some {| owner := JStr "ann"; metadata := JDict []; minted_at := "t0" |}
  /\
  dict_get "7" (nft_store (world_after (H := example_runtime) cs w))
  = Some {| owner := JStr "ann"; metadata := JDict []; minted_at := "t0" |}.
Proof.
  intros w cs. split; [reflexivity|].
  exact (proj2 (@records_never_change example_runtime cs
                  (mint_call "t1" (JDict [])) w "7"
                  {| owner := JStr "ann"; metadata := JDict [];
                     minted_at := "t0" |} eq_refl)).
Defined.


(* ------------------------------------------------------------------ *)
(** ** [mint_nft] beyond ids: what the answer says about the table     *)
(* ------------------------------------------------------------------ *)

Section MintAnswers.
Context `{Runtime}.

(** X1. A mint whose body is not a JSON object ends in the [except]
    clause: when [request.json()] raises, the answer is 500 with the
    text of the exception; when it returns a list, a number, a string, a
    boolean or [null], the answer is 500 with the [AttributeError] of
    [data.get].  Table and counter are left as they were and the
    exception is logged. *)
Theorem mint_nft_rejects_non_object now req w :
  (forall d, request_json req <> Returned (JDict d)) ->
  exists r w' e,
    mint_nft now req w = (Returned r, w') /\
    status r = 500 /\
    field "status" r = Some (JStr "error") /\
    field "message" r
    = Some (JStr
              match request_json req with
              | Raised e => exn_str e
              | Returned j =>
                  "'" ++ type_name j ++ "' object has no attribute 'get'"
              end) /\
    nft_store w' = nft_store w /\
    next_token_id w' = next_token_id w /\
    logged w' = (logged w ++ [LogException "Error minting NFT" e])%list.
Proof.
  intros Hreq. unfold mint_nft. run_handler.
  destruct (request_json req) as [j|e] eqn:Ej.
  - destruct j; try (eexists _, _, _; repeat split; reflexivity).
    now elim (Hreq d).
  - eexists _, _, _; repeat split; reflexivity.
Qed.

(** X2. The status of a mint's answer tells what happened to the table.
    With 200 exactly one record was appended at the end, under an id that
    was not there, and the answer carries that id and that record, stamped
    with the clock; with 400 the id named in the message was already there
    and table and log are untouched; with 500 table and counter are
    untouched.  There is no other status. *)
Theorem mint_nft_by_status now req w :
  exists r w',
    mint_nft now req w = (Returned r, w') /\
    ((status r = 200 /\
      exists id stored,
        field "token_id" r = Some (JStr id) /\
        field "nft" r = Some (JDict (nft_json stored)) /\
        minted_at stored = now /\
        dict_get id (nft_store w) = None /\
        nft_store w' = (nft_store w ++ [(id, stored)])%list /\
        logged w' = (logged w ++ [LogMinted id (owner stored)])%list)
     \/
     (status r = 400 /\
      nft_store w' = nft_store w /\ logged w' = logged w /\
      exists id,
        dict_contains id (nft_store w) = true /\
        field "message" r
        = Some (JStr ("Token ID " ++ id ++ " already exists")))
     \/
     (status r = 500 /\
      nft_store w' = nft_store w /\ next_token_id w' = next_token_id w)).
Proof.
  assert (Hcase : (exists d, request_json req = Returned (JDict d)) \/
                  (forall d, request_json req <> Returned (JDict d))).
  { destruct (request_json req) as [[| | | | | |d]|e];
      try (right; intros; discriminate). left; eauto. }
  destruct Hcase as [[d Hreq]|Hno].
  - destruct (resolve_token_id_returns
                (dict_get_default "token_id" JNull d) w)
      as (id & w1 & Hres & Hst & Hlog & Hn & Hid).
    destruct (dict_contains id (nft_store w1)) eqn:Hin.
    + rewrite (mint_nft_conflict now req w d id w1 Hreq Hres Hin).
      eexists _, _. split; [reflexivity|]. right; left.
      rewrite Hst in Hin. repeat split; auto. exists id. split; auto.
    + rewrite (mint_nft_created now req w d id w1 Hreq Hres Hin).
      eexists _, _. split; [reflexivity|]. left. split; [reflexivity|].
      rewrite Hst in Hin. apply dict_contains_false in Hin.
      eexists id, _. cbn [nft_store logged].
      rewrite Hst, Hlog, dict_set_fresh by assumption.
      repeat split; auto.
  - destruct (mint_nft_failed now req w Hno) as [e ->].
    eexists _, _. split; [reflexivity|]. right; right. repeat split.
Qed.
End MintAnswers.

(** A mint with the body [[]]. *)
Lemma mint_nft_rejects_non_object_witness :
  exists r w',
    mint_nft (H := example_runtime) "t0" (json_request (JList []))
      initial_world = (Returned r, w') /\
    status r = 500 /\
    field "message" r
    = Some (JStr "'list' object has no attribute 'get'") /\
    nft_store w' = [] /\ next_token_id w' = 1.
Proof.
  destruct (@mint_nft_rejects_non_object example_runtime "t0"
              (json_request (JList [])) initial_world)
    as (r & w' & e & Hrun & Hst & _ & Hmsg & Htab & Hn & _).
  - intros d Hd. discriminate Hd.
  - exists r, w'. split; [exact Hrun|]. split; [exact Hst|].
    split; [exact Hmsg|]. split; [exact Htab | exact Hn].
Defined.

(* ------------------------------------------------------------------ *)
(** ** Every call is answered                                          *)
(* ------------------------------------------------------------------ *)

Section Answers.
Context `{Runtime}.

(** The answer of [submit_handler] is decided by the payload alone. *)
Lemma submit_handler_response now req w :
  fst (submit_handler now req w) =
  Returned
    match decode_and_parse (request_read req) with
    | Raised e =>
        if catch_decode_errors (exn_type e) then
          json_response
            (JDict [ ("status", JStr "ok");
                     ("message", JStr "Submission processed successfully");
                     ("bytes_received", JInt (len (request_read req))) ])
            200
        else
          json_response
            (JDict [ ("status", JStr "error");
                     ("message", JStr (exn_str e)) ])
            500
    | Returned _ =>
        json_response
          (JDict [ ("status", JStr "ok");
                   ("message", JStr "Submission processed successfully");
                   ("bytes_received", JInt (len (request_read req))) ])
          200
    end.
Proof.
  destruct (decode_and_parse (request_read req)) as [j|e] eqn:Hdec.
  - assert (Hcase : (exists d, j = JDict d /\ mint_shaped d = true) \/
                    (forall d, j = JDict d -> mint_shaped d = false)).
    { destruct j; try (right; intros; discriminate).
      destruct (mint_shaped d) eqn:Hs; [left; eauto|].
      right. now intros d' [= <-]. }
    destruct Hcase as [(d & -> & Hshape)|Hshape].
    + destruct (resolve_token_id_returns
                  (dict_get_default "token_id" JNull d) w)
        as (id & w1 & Hres & _).
      destruct (dict_contains id (nft_store w)) eqn:Hin.
      * now rewrite (submit_handler_skipped now req w d id w1
                       Hdec Hshape Hres Hin).
      * now rewrite (submit_handler_created now req w d id w1
                       Hdec Hshape Hres Hin).
    + now rewrite (submit_handler_ignored now req w j Hdec Hshape).
  - destruct (catch_decode_errors (exn_type e)) eqn:Hcatch.
    + now rewrite (submit_handler_opaque now req w e Hdec Hcatch).
    + now rewrite (submit_handler_error now req w e Hdec Hcatch).
Qed.

(** X3. No handler lets an exception escape: every call, in every state,
    is answered with a response that carries the CORS headers.  [health]
    and [list_nfts] always answer 200; [mint_nft] answers 200, 400 or 500;
    [get_nft] 200, 400 or 404; [submit_handler] 200 or 500;
    [options_handler] 200 without a body.  A JSON answer has status 200
    exactly when its [status] field is [ok] ([OK] for health); otherwise
    the field is [error] and there is a [message]. *)
Theorem every_call_is_answered c w :
  exists r w',
    serve c w = (Returned r, w') /\
    headers r = cors_headers /\
    match call_route c with
    | GET_health =>
        status r = 200 /\ field "status" r = Some (JStr "OK")
    | GET_nfts => is_ok r
    | POST_mint => is_ok r \/ is_error 400 r \/ is_error 500 r
    | GET_nft => is_ok r \/ is_error 400 r \/ is_error 404 r
    | POST_submit => is_ok r \/ is_error 500 r
    | OPTIONS_any => status r = 200 /\ body r = None
    end.
Proof.
  unfold is_ok, is_error.
  destruct c as [[] now req]; unfold serve; simpl.
  - eexists _, _. split; [reflexivity|]. repeat split.
  - assert (Hcase : (exists d, request_json req = Returned (JDict d)) \/
                    (forall d, request_json req <> Returned (JDict d))).
    { destruct (request_json req) as [[| | | | | |d]|e];
        try (right; intros; discriminate). left; eauto. }
    destruct Hcase as [[d Hreq]|Hno].
    + destruct (resolve_token_id_returns
                  (dict_get_default "token_id" JNull d) w)
        as (id & w1 & Hres & _).
      destruct (dict_contains id (nft_store w1)) eqn:Hin.
      * rewrite (mint_nft_conflict now req w d id w1 Hreq Hres Hin).
        eexists _, _. split; [reflexivity|]. split; [reflexivity|].
        right; left. repeat split. eexists; reflexivity.
      * rewrite (mint_nft_created now req w d id w1 Hreq Hres Hin).
        eexists _, _. split; [reflexivity|]. split; [reflexivity|].
        left. repeat split.
    + destruct (mint_nft_failed now req w Hno) as [e ->].
      eexists _, _. split; [reflexivity|]. split; [reflexivity|].
      right; right. repeat split. eexists; reflexivity.
  - eexists _, _. split; [reflexivity|]. repeat split.
  - unfold get_nft.
    destruct (dict_get "token_id" (request_match_info req)) as [[|a s]|].
    + eexists _, _. split; [reflexivity|]. split; [reflexivity|].
      right; left. repeat split. eexists; reflexivity.
    + run_handler. unfold dict_contains.
      destruct (dict_get (String a s) (nft_store w)) as [v|] eqn:Hget;
        simpl; [rewrite Hget|].
      * eexists _, _. split; [reflexivity|]. split; [reflexivity|].
        left. repeat split.
      * eexists _, _. split; [reflexivity|]. split; [reflexivity|].
        right; right. repeat split. eexists; reflexivity.
    + eexists _, _. split; [reflexivity|]. split; [reflexivity|].
      right; left. repeat split. eexists; reflexivity.
  - pose proof (submit_handler_response now req w) as Hr.
    destruct (submit_handler now req w) as [o w']. simpl in Hr. subst o.
    eexists _, _. split; [reflexivity|].
    destruct (decode_and_parse (request_read req)) as [j|e];
      [|destruct (catch_decode_errors (exn_type e))];
      (split; [reflexivity|]).
    + left. repeat split.
    + left. repeat split.
    + right. repeat split. eexists; reflexivity.
  - eexists _, _. split; [reflexivity|]. repeat split.
Qed.

(** X4. The four handlers that only read leave the globals and the log
    exactly as they were: [health], [list_nfts], [get_nft] (also when it
    answers 400 or 404) and [options_handler]. *)
Theorem reading_changes_nothing c w :
  call_route c = GET_health \/ call_route c = GET_nfts \/
  call_route c = GET_nft \/ call_route c = OPTIONS_any ->
  snd (serve c w) = w.
Proof.
  destruct c as [[] now req]; unfold serve; simpl;
    intros [Hr|[Hr|[Hr|Hr]]]; try discriminate Hr; try reflexivity.
  destruct (get_nft_returns req w) as [r ->]. reflexivity.
Qed.

(** X5. The answer to a submission depends on nothing but the payload:
    two submissions of the same bytes get the same answer whatever the
    table, the counter, the headers and the clock.  The answer does not
    show whether a record was created. *)
Theorem submit_answer_shows_payload_only now now' req req' w w' :
  request_read req = request_read req' ->
  fst (submit_handler now req w) = fst (submit_handler now' req' w').
Proof.
  intros Hread. rewrite !submit_handler_response. now rewrite Hread.
Qed.
End Answers.

(** A lookup of an id that is not there. *)
Lemma reading_changes_nothing_witness :
  let w := world_after (H := example_runtime)
             [mint_call "t0" (JDict [])] initial_world in
  snd (serve (H := example_runtime)
         (Call GET_nft "t1" (path_request [("token_id", "9")])) w) = w.
Proof.
  intros w.
  exact (@reading_changes_nothing example_runtime
           (Call GET_nft "t1" (path_request [("token_id", "9")])) w
           (or_intror (or_intror (or_introl eq_refl)))).
Defined.

(** The same payload, first creating record ["7"], then skipped. *)
Lemma submit_answer_shows_payload_only_witness :
  let req := raw_request (list_byte_of_string text_token7) [] in
  let req' := raw_request (list_byte_of_string text_token7)
                [("X-User", "alice")] in
  let w' := world_after (H := example_runtime)
              [submit_call "t0" text_token7 []] initial_world in
  nft_store w' <> nft_store initial_world /\
  fst (submit_handler (H := example_runtime) "t0" req initial_world)
  = fst (submit_handler (H := example_runtime) "t1" req' w').
Proof.
  intros req req' w'. split; [discriminate|].
  exact (@submit_answer_shows_payload_only example_runtime "t0" "t1"
           req req' initial_world w' eq_refl).
Defined.

(* ------------------------------------------------------------------ *)
(** ** The table only grows, at its end                                *)
(* ------------------------------------------------------------------ *)

Lemma dict_get_app_None (V : Type) (k : str) (d d' : dict V) :
  dict_get k (d ++ d')%list = None -> dict_get k d = None.
Proof.
  induction d as [|[k' v'] d IH]; simpl; auto.
  destruct (String.eqb k k'); auto.
Qed.

Section Growth.
Context `{Runtime}.

(** One call appends at most one record. *)
Lemma effect_appends c w r w' :
  effect_of c w r w' ->
  exists more,
    nft_store w' = (nft_store w ++ more)%list /\
    (List.length more <= 1)%nat /\
    (forall id, In id (dict_keys more) -> dict_get id (nft_store w) = None).
Proof.
  intros [_ [[Hst _]|(id & rec & Hfresh & Hst & _)]].
  - exists []. rewrite Hst, app_nil_r. repeat split; auto.
    intros id [].
  - exists [(id, rec)]. rewrite Hst, dict_set_fresh by assumption.
    repeat split; auto. intros id' [<-|[]]. exact Hfresh.
Qed.

Lemma run_appends cs w :
  exists more,
    nft_store (world_after cs w) = (nft_store w ++ more)%list /\
    (List.length more <= List.length cs)%nat /\
    (forall id, In id (dict_keys more) -> dict_get id (nft_store w) = None).
Proof.
  revert w. induction cs as [|c cs IH]; intros w.
  - exists []. rewrite world_after_nil, app_nil_r. repeat split; auto.
    intros id [].
  - rewrite world_after_cons.
    destruct (serve_effect c w) as (r & w' & Hs & He).
    rewrite Hs. simpl.
    destruct (effect_appends c w r w' He) as (m1 & Hm1 & Hl1 & Hf1).
    destruct (IH w') as (m2 & Hm2 & Hl2 & Hf2).
    exists (m1 ++ m2)%list. rewrite Hm2, Hm1, app_assoc.
    split; [reflexivity|]. split.
    + rewrite length_app. simpl. lia.
    + intros id Hin. unfold dict_keys in Hin.
      rewrite map_app in Hin. apply in_app_or in Hin as [Hin|Hin]; auto.
      apply Hf2 in Hin. rewrite Hm1 in Hin.
      now apply dict_get_app_None in Hin.
Qed.

(** X6. The table is append-only.  After any run of calls, from any
    state, the table is the old table followed by the records created
    meanwhile, at most one for each call and each under an id that was not
    in the old table; accordingly the listing of [list_nfts] after the run
    begins with the listing before it, in the same order. *)
Theorem table_only_grows cs w req req' :
  exists more r r' items more_items,
    nft_store (world_after cs w) = (nft_store w ++ more)%list /\
    (List.length more <= List.length cs)%nat /\
    (forall id, In id (dict_keys more) -> dict_get id (nft_store w) = None) /\
    list_nfts req w = (Returned r, w) /\
    list_nfts req' (world_after cs w) = (Returned r', world_after cs w) /\
    field "nfts" r = Some (JList items) /\
    field "nfts" r' = Some (JList (items ++ more_items)) /\
    List.length items = List.length (nft_store w) /\
    List.length more_items = List.length more.
Proof.
  destruct (run_appends cs w) as (more & Hm & Hl & Hf).
  exists more. eexists _, _, _, _.
  split; [exact Hm|]. split; [exact Hl|]. split; [exact Hf|].
  split; [reflexivity|]. split; [reflexivity|].
  split; [reflexivity|]. split.
  - cbn. rewrite Hm, map_app. reflexivity.
  - now rewrite !length_map.
Qed.
End Growth.

(* ------------------------------------------------------------------ *)
(** ** Minting by [/mint] and by [/submit]                             *)
(* ------------------------------------------------------------------ *)

Section TwoWays.
Context `{Runtime}.

(** The table after a call that carries the mint body [d]. *)
Lemma submit_handler_table now req w d :
  decode_and_parse (request_read req) = Returned (JDict d) ->
  mint_shaped d = true ->
  let token_id := dict_get_default "token_id" JNull d in
  let id := if truthy token_id then py_str token_id
            else str_of_int (next_token_id w) in
  let w' := snd (submit_handler now req w) in
  nft_store w' =
  (if dict_contains id (nft_store w) then nft_store w
   else dict_set id
          {| owner := str_or (dict_get "X-User" (request_headers req)) JStr
                        (dict_get_default "owner" (JStr "unknown") d);
             metadata := dict_get_default "metadata" (JDict []) d;
             minted_at := now |}
          (nft_store w)) /\
  next_token_id w' = next_token_id w + (if truthy token_id then 0 else 1).
Proof.
  intros Hdec Hshape token_id id w'. unfold w'.
  destruct (resolve_token_id_returns token_id w)
    as (id' & w1 & Hres & _ & _ & Hn & Hid).
  fold id in Hid. subst id'.
  destruct (dict_contains id (nft_store w)) eqn:Hin.
  - now rewrite (submit_handler_skipped now req w d id w1
                   Hdec Hshape Hres Hin).
  - now rewrite (submit_handler_created now req w d id w1
                   Hdec Hshape Hres Hin).
Qed.

Lemma mint_nft_table now req w d :
  request_json req = Returned (JDict d) ->
  let token_id := dict_get_default "token_id" JNull d in
  let id := if truthy token_id then py_str token_id
            else str_of_int (next_token_id w) in
  let w' := snd (mint_nft now req w) in
  nft_store w' =
  (if dict_contains id (nft_store w) then nft_store w
   else dict_set id
          {| owner := dict_get_default "owner" (JStr "unknown") d;
             metadata := dict_get_default "metadata" (JDict []) d;
             minted_at := now |}
          (nft_store w)) /\
  next_token_id w' = next_token_id w + (if truthy token_id then 0 else 1).
Proof.
  intros Hreq token_id id w'. unfold w'.
  destruct (resolve_token_id_returns token_id w)
    as (id' & w1 & Hres & Hst & _ & Hn & Hid).
  fold id in Hid. subst id'.
  destruct (dict_contains id (nft_store w)) eqn:Hin.
  - assert (Hin1 : dict_contains id (nft_store w1) = true)
      by now rewrite Hst.
    rewrite (mint_nft_conflict now req w d id w1 Hreq Hres Hin1).
    cbn [snd]. auto.
  - assert (Hin1 : dict_contains id (nft_store w1) = false)
      by now rewrite Hst.
    rewrite (mint_nft_created now req w d id w1 Hreq Hres Hin1).
    cbn [snd nft_store next_token_id]. rewrite Hst. auto.
Qed.

(** X7. Of the four headers that [submit_handler] reads, only [X-User]
    reaches the globals: two submissions of the same payload at the same
    clock, from the same state, that agree on [X-User] leave the same
    table and the same counter, whatever their [X-Forwarded-From],
    [X-Content-Type] and [X-Timestamp].  In particular [X-Timestamp] never
    replaces the clock in [minted_at]. *)
Theorem submit_uses_only_the_user_header now req req' w :
  request_read req = request_read req' ->
  dict_get "X-User" (request_headers req)
  = dict_get "X-User" (request_headers req') ->
  nft_store (snd (submit_handler now req w))
  = nft_store (snd (submit_handler now req' w)) /\
  next_token_id (snd (submit_handler now req w))
  = next_token_id (snd (submit_handler now req' w)).
Proof.
  intros Hread Huser.
  destruct (decode_and_parse (request_read req)) as [j|e] eqn:Hdec.
  - assert (Hcase : (exists d, j = JDict d /\ mint_shaped d = true) \/
                    (forall d, j = JDict d -> mint_shaped d = false)).
    { destruct j; try (right; intros; discriminate).
      destruct (mint_shaped d) eqn:Hs; [left; eauto|].
      right. now intros d' [= <-]. }
    destruct Hcase as [(d & -> & Hshape)|Hshape].
    + destruct (submit_handler_table now req w d Hdec Hshape) as [-> ->].
      rewrite Hread in Hdec.
      destruct (submit_handler_table now req' w d Hdec Hshape) as [-> ->].
      now rewrite Huser.
    + rewrite (submit_handler_ignored now req w j Hdec Hshape).
      rewrite Hread in Hdec.
      now rewrite (submit_handler_ignored now req' w j Hdec Hshape).
  - destruct (catch_decode_errors (exn_type e)) eqn:Hcatch.
    + rewrite (submit_handler_opaque now req w e Hdec Hcatch).
      rewrite Hread in Hdec.
      now rewrite (submit_handler_opaque now req' w e Hdec Hcatch).
    + rewrite (submit_handler_error now req w e Hdec Hcatch).
      rewrite Hread in Hdec.
      now rewrite (submit_handler_error now req' w e Hdec Hcatch).
Qed.

(** X8. A submission without [X-User] (or with an empty one) whose payload
    parses to a mint-shaped object does to the table and to the counter
    exactly what a mint with that object as its body does: the same record
    under the same id when the id is free, nothing when it is taken, the
    same use of the counter.  Only the answers differ. *)
Theorem submit_mints_like_mint now sreq mreq w d :
  decode_and_parse (request_read sreq) = Returned (JDict d) ->
  mint_shaped d = true ->
  request_json mreq = Returned (JDict d) ->
  dict_get "X-User" (request_headers sreq) = None \/
  dict_get "X-User" (request_headers sreq) = Some "" ->
  nft_store (snd (submit_handler now sreq w))
  = nft_store (snd (mint_nft now mreq w)) /\
  next_token_id (snd (submit_handler now sreq w))
  = next_token_id (snd (mint_nft now mreq w)).
Proof.
  intros Hdec Hshape Hreq Huser.
  destruct (submit_handler_table now sreq w d Hdec Hshape) as [-> ->].
  destruct (mint_nft_table now mreq w d Hreq) as [-> ->].
  destruct Huser as [-> | ->]; split; reflexivity.
Qed.

(** X9. A mint that supplies its id, repeated, is refused: whatever the
    first one did, the second is answered 400 naming the id and leaves the
    whole state, log included, as the first one left it. *)
Theorem mint_repeated_is_refused now now' req w d :
  request_json req = Returned (JDict d) ->
  truthy (dict_get_default "token_id" JNull d) = true ->
  exists r1 w1 r2,
    mint_nft now req w = (Returned r1, w1) /\
    mint_nft now' req w1 = (Returned r2, w1) /\
    is_error 400 r2 /\
    field "message" r2
    = Some (JStr ("Token ID "
                  ++ py_str (dict_get_default "token_id" JNull d)
                  ++ " already exists")) /\
    next_token_id w1 = next_token_id w.
Proof.
  intros Hreq Ht.
  set (id := py_str (dict_get_default "token_id" JNull d)).
  assert (Hres : forall w0,
             resolve_token_id (dict_get_default "token_id" JNull d) w0
             = (Returned id, w0))
    by (intros w0; now apply resolve_token_id_explicit).
  assert (Hsecond : forall w1,
             dict_contains id (nft_store w1) = true ->
             exists r2,
               mint_nft now' req w1 = (Returned r2, w1) /\
               is_error 400 r2 /\
               field "message" r2
               = Some (JStr ("Token ID " ++ id ++ " already exists"))).
  { intros w1 Hin.
    rewrite (mint_nft_conflict now' req w1 d id w1 Hreq (Hres w1) Hin).
    eexists. split; [reflexivity|]. split; [|reflexivity].
    repeat split. eexists; reflexivity. }
  destruct (dict_contains id (nft_store w)) eqn:Hin.
  - destruct (Hsecond w Hin) as (r2 & Hrun2 & Herr & Hmsg).
    rewrite (mint_nft_conflict now req w d id w Hreq (Hres w) Hin).
    eexists _, w, r2. split; [reflexivity|]. repeat split; auto.
    all: try apply Herr.
  - rewrite (mint_nft_created now req w d id w Hreq (Hres w) Hin).
    match goal with
    | |- exists r1 w1 r2, (_, ?w1') = _ /\ _ =>
        destruct (Hsecond w1') as (r2 & Hrun2 & Herr & Hmsg)
    end.
    { cbn [nft_store]. apply dict_contains_true. eexists.
      apply dict_get_set_same. }
    eexists _, _, r2. split; [reflexivity|]. repeat split; auto.
    all: try apply Herr.
Qed.
End TwoWays.

(** [{"metadata":{}}] with and without [X-Timestamp] and
    [X-Forwarded-From]. *)
Lemma submit_uses_only_the_user_header_witness :
  let req := raw_request (list_byte_of_string text_metadata_only)
               [("X-Timestamp", "1999-01-01T00:00:00");
                ("X-Forwarded-From", "core-lane")] in
  let req' := raw_request (list_byte_of_string text_metadata_only) [] in
  nft_store (snd (submit_handler (H := example_runtime) "t0" req
                    initial_world))
  = [("1", {| owner := JStr "unknown"; metadata := JDict [];
              minted_at := "t0" |})] /\
  nft_store (snd (submit_handler (H := example_runtime) "t0" req
                    initial_world))
  = nft_store (snd (submit_handler (H := example_runtime) "t0" req'
                      initial_world)).
Proof.
  intros req req'. split; [reflexivity|].
  exact (proj1 (@submit_uses_only_the_user_header example_runtime "t0"
                  req req' initial_world eq_refl eq_refl)).
Defined.

(** [{"token_id":"7","metadata":{"x":1}}] submitted and minted. *)
Lemma submit_mints_like_mint_witness :
  let d := [("token_id", JStr "7"); ("metadata", JDict [("x", JInt 1)])] in
  let sreq := raw_request (list_byte_of_string text_token7) [] in
  let mreq := json_request (JDict d) in
  nft_store (snd (submit_handler (H := example_runtime) "t0" sreq
                    initial_world))
  = nft_store (snd (mint_nft (H := example_runtime) "t0" mreq
                      initial_world)) /\
  fst (submit_handler (H := example_runtime) "t0" sreq initial_world)
  <> fst (mint_nft (H := example_runtime) "t0" mreq initial_world).
Proof.
  intros d sreq mreq. split; [|discriminate].
  exact (proj1 (@submit_mints_like_mint example_runtime "t0" sreq mreq
                  initial_world d eq_refl eq_refl eq_refl
                  (or_introl eq_refl))).
Defined.

(** A mint of the number 7 as id, twice. *)
Lemma mint_repeated_is_refused_witness :
  let req := json_request (JDict [("token_id", JInt 7)]) in
  exists r1 w1 r2,
    mint_nft (H := example_runtime) "t0" req initial_world
    = (Returned r1, w1) /\
    mint_nft (H := example_runtime) "t1" req w1 = (Returned r2, w1) /\
    status r1 = 200 /\ status r2 = 400 /\
    field "message" r2 = Some (JStr "Token ID 7 already exists").
Proof.
  intros req.
  destruct (@mint_repeated_is_refused example_runtime "t0" "t1" req
              initial_world [("token_id", JInt 7)] eq_refl eq_refl)
    as (r1 & w1 & r2 & Hrun1 & Hrun2 & Herr & Hmsg & _).
  exists r1, w1, r2. split; [exact Hrun1|]. split; [exact Hrun2|].
  split; [|split; [apply Herr | exact Hmsg]].
  vm_compute in Hrun1. injection Hrun1 as <- _. reflexivity.
Defined.

(* ------------------------------------------------------------------ *)
(** ** Falsy ids, the counter, and tables of generated ids             *)
(* ------------------------------------------------------------------ *)

Section Generated.
Context `{Runtime}.

(** X10. A [token_id] that Python counts as false -- [null], [false],
    [0], [0.0] or [-0.0], [""], [[]], [{}] -- is treated as no [token_id]
    at all: the mint is answered, and changes the state, exactly as a mint
    whose body has no [token_id] and the same [owner] and [metadata]
    entries.  None of these values can be minted as an id of its own. *)
Theorem falsy_token_id_is_no_token_id now req req' w d d' t :
  request_json req = Returned (JDict d) ->
  request_json req' = Returned (JDict d') ->
  dict_get "token_id" d = Some t ->
  t = JNull \/ t = JBool false \/ t = JInt 0 \/
  (exists s, t = JFloat (S754_zero s)) \/
  t = JStr "" \/ t = JList [] \/ t = JDict [] ->
  dict_get "token_id" d' = None ->
  dict_get "owner" d' = dict_get "owner" d ->
  dict_get "metadata" d' = dict_get "metadata" d ->
  mint_nft now req w = mint_nft now req' w.
Proof.
  intros Hreq Hreq' Ht Hfalsy Hnone Hown Hmeta.
  assert (Hf : truthy (dict_get_default "token_id" JNull d) = false).
  { unfold dict_get_default. rewrite Ht.
    destruct Hfalsy as [->|[->|[->|[[s ->]|[->|[->| ->]]]]]]; reflexivity. }
  assert (Hf' : truthy (dict_get_default "token_id" JNull d') = false)
    by (unfold dict_get_default; now rewrite Hnone).
  pose proof (resolve_token_id_auto _ w Hf) as Hres.
  pose proof (resolve_token_id_auto _ w Hf') as Hres'.
  assert (Ho : dict_get_default "owner" (JStr "unknown") d'
               = dict_get_default "owner" (JStr "unknown") d)
    by (unfold dict_get_default; now rewrite Hown).
  assert (Hm : dict_get_default "metadata" (JDict []) d'
               = dict_get_default "metadata" (JDict []) d)
    by (unfold dict_get_default; now rewrite Hmeta).
  destruct (dict_contains (str_of_int (next_token_id w)) (nft_store w))
    eqn:Hin.
  - rewrite (mint_nft_conflict now req w d _ _ Hreq Hres Hin).
    now rewrite (mint_nft_conflict now req' w d' _ _ Hreq' Hres' Hin).
  - rewrite (mint_nft_created now req w d _ _ Hreq Hres Hin).
    rewrite (mint_nft_created now req' w d' _ _ Hreq' Hres' Hin).
    now rewrite Ho, Hm.
Qed.

(** X11. The counter never goes back.  Over any run, from any state, it
    advances by exactly the number of calls -- mints and submissions, also
    those then refused or skipped -- that had an id generated; every other
    call leaves it alone.  From the initial state it is always at least
    1. *)
Theorem counter_counts_generated cs w :
  next_token_id (world_after cs w) = next_token_id w + count_auto cs /\
  next_token_id w <= next_token_id (world_after cs w) /\
  1 <= next_token_id (world_after cs initial_world).
Proof.
  assert (Hpos : forall l, 0 <= count_auto l)
    by (intros l; unfold count_auto; lia).
  specialize (Hpos cs).
  split; [apply counter_after|].
  split; rewrite counter_after; [lia|].
  change (next_token_id initial_world) with 1. lia.
Qed.

(** A call that carries a mint body creates the record when the id is
    free. *)
Lemma serve_mints c w d :
  mint_body c = Some d ->
  let token_id := dict_get_default "token_id" JNull d in
  let id := if truthy token_id then py_str token_id
            else str_of_int (next_token_id w) in
  dict_contains id (nft_store w) = false ->
  exists stored,
    nft_store (snd (serve c w)) = dict_set id stored (nft_store w).
Proof.
  destruct c as [[] now req]; unfold mint_body, serve; simpl;
    try discriminate.
  - destruct (request_json req) as [[| | | | | |d0]|e] eqn:Hreq;
      try discriminate.
    intros [= ->] Hin.
    destruct (mint_nft_table now req w d Hreq) as [Hst _].
    cbv zeta in Hst. rewrite Hin in Hst. eauto.
  - destruct (decode_and_parse (request_read req))
      as [[| | | | | |d0]|e] eqn:Hdec; try discriminate.
    destruct (mint_shaped d0) eqn:Hshape; try discriminate.
    intros [= ->] Hin.
    destruct (submit_handler_table now req w d Hdec Hshape) as [Hst _].
    cbv zeta in Hst. rewrite Hin in Hst. eauto.
Qed.

Lemma generated_keys_after cs w (n : nat) :
  next_token_id w = Z.of_nat n + 1 ->
  dict_keys (nft_store w)
  = map (fun k => str_of_int (Z.of_nat k)) (seq 1 n) ->
  explicit_ids cs = [] ->
  dict_keys (nft_store (world_after cs w))
  = map (fun k => str_of_int (Z.of_nat k))
      (seq 1 (n + Z.to_nat (count_auto cs))).
Proof.
  revert w n. induction cs as [|c cs IH]; intros w n Hn Hkeys Hex.
  - rewrite world_after_nil. unfold count_auto. simpl.
    now rewrite Nat.add_0_r.
  - unfold explicit_ids in Hex. simpl in Hex.
    apply app_eq_nil in Hex as [Hc Hcs]. fold (explicit_ids cs) in Hcs.
    rewrite world_after_cons, count_auto_cons.
    assert (Hpos : 0 <= count_auto cs) by (unfold count_auto; lia).
    destruct (serve_effect c w) as (r & w' & Hs & Hcnt & Heff).
    destruct (auto_generating c) eqn:Hauto.
    + (* an id is generated: it is free, and the record is appended *)
      assert (Hbody : exists d,
                 mint_body c = Some d /\
                 truthy (dict_get_default "token_id" JNull d) = false).
      { unfold auto_generating in Hauto.
        destruct (mint_body c) as [d|]; [|discriminate].
        exists d. split; auto.
        now destruct (truthy (dict_get_default "token_id" JNull d)). }
      destruct Hbody as (d & Hbody & Hf).
      assert (Hfree : dict_contains (str_of_int (next_token_id w))
                        (nft_store w) = false).
      { destruct (dict_contains _ _) eqn:Hin; auto.
        apply dict_contains_keys in Hin. rewrite Hkeys in Hin.
        apply in_map_iff in Hin as (k & Heq & Hk).
        apply str_of_int_inj in Heq. apply in_seq in Hk. lia. }
      pose proof (serve_mints c w d Hbody) as Hm.
      cbv zeta in Hm. rewrite Hf in Hm.
      destruct (Hm Hfree) as [stored Hst].
      rewrite Hs in *. cbn [snd] in Hst |- *.
      replace (n + Z.to_nat (1 + count_auto cs))%nat
        with (S n + Z.to_nat (count_auto cs))%nat by lia.
      apply IH; auto; [lia|].
      rewrite Hst, dict_keys_set_fresh
        by now apply dict_contains_false.
      rewrite Hkeys, seq_S, map_app. simpl.
      do 2 f_equal. rewrite Hn. f_equal. lia.
    + (* no id is generated, none is supplied: nothing is created *)
      rewrite Hs. cbn [snd].
      replace (n + Z.to_nat (0 + count_auto cs))%nat
        with (n + Z.to_nat (count_auto cs))%nat by lia.
      destruct Heff as [[Hst _]|(id & rec & _ & _ & _ & [Hin|[Hf _]])].
      * apply IH; auto; [lia | now rewrite Hst].
      * rewrite Hc in Hin. destruct Hin.
      * discriminate.
Qed.

(** X12. As long as no call supplies an id of its own, nothing is ever
    refused or skipped as a duplicate: after a run from the initial state
    in which [k] calls had an id generated, the keys of the table are
    ["1"], ["2"], ..., [k], in this order. *)
Theorem generated_ids_fill_the_table cs :
  explicit_ids cs = [] ->
  dict_keys (nft_store (world_after cs initial_world))
  = map (fun k => str_of_int (Z.of_nat k))
      (seq 1 (Z.to_nat (count_auto cs))).
Proof.
  intros Hex.
  exact (generated_keys_after cs initial_world 0 eq_refl eq_refl Hex).
Qed.
End Generated.

(** [{"token_id": 0, "owner": "ann"}] against [{"owner": "ann"}]. *)
Lemma falsy_token_id_is_no_token_id_witness :
  let req := json_request (JDict [("token_id", JInt 0);
                                  ("owner", JStr "ann")]) in
  let req' := json_request (JDict [("owner", JStr "ann")]) in
  mint_nft (H := example_runtime) "t0" req initial_world
  = mint_nft (H := example_runtime) "t0" req' initial_world /\
  dict_keys (nft_store (snd (mint_nft (H := example_runtime) "t0" req
                               initial_world))) = ["1"].
Proof.
  intros req req'. split; [|reflexivity].
  exact (@falsy_token_id_is_no_token_id example_runtime "t0" req req'
           initial_world
           [("token_id", JInt 0); ("owner", JStr "ann")]
           [("owner", JStr "ann")] (JInt 0)
           eq_refl eq_refl eq_refl
           (or_intror (or_intror (or_introl eq_refl)))
           eq_refl eq_refl eq_refl).
Defined.

(** Two mints, a submission, a lookup and a non-mint payload. *)
Lemma generated_ids_fill_the_table_witness :
  let cs := [ mint_call "t0" (JDict []);
              submit_call "t1" text_metadata_only [("X-User", "alice")];
              Call GET_nft "t2" (path_request [("token_id", "1")]);
              submit_call "t3" text_list [];
              mint_call "t4" (JDict [("owner", JStr "ann")]) ] in
  dict_keys (nft_store (world_after (H := example_runtime) cs
                          initial_world))
  = ["1"; "2"; "3"].
Proof.
  intros cs.
  exact (@generated_ids_fill_the_table example_runtime cs eq_refl).
Defined.

(* ------------------------------------------------------------------ *)
(** ** Reading back what a submission created                          *)
(* ------------------------------------------------------------------ *)

Section ReadBack.
Context `{Runtime}.

Lemma get_nft_hit req w id stored :
  dict_get "token_id" (request_match_info req) = Some id ->
  id <> "" ->
  dict_get id (nft_store w) = Some stored ->
  get_nft req w =
  (Returned
     (json_response
        (JDict [ ("status", JStr "ok");
                 ("token_id", JStr id);
                 ("nft", JDict (nft_json stored)) ])
        200), w).
Proof.
  intros Hid Hne Hget. unfold get_nft. rewrite Hid.
  destruct id as [|a s]; [congruence|].
  run_handler. unfold dict_contains. rewrite Hget. simpl.
  now rewrite Hget.
Qed.

(** X13. The answer to a submission does not say so, but a record it
    created can be read back: after any further calls, [get_nft] for its
    id answers 200 with the owner chosen between [X-User] and the body,
    the metadata of the body (or [{}]) and the clock of the submission as
    [minted_at]. *)
Theorem submitted_record_is_read_back now req w d id w1 cs greq :
  decode_and_parse (request_read req) = Returned (JDict d) ->
  mint_shaped d = true ->
  resolve_token_id (dict_get_default "token_id" JNull d) w
  = (Returned id, w1) ->
  dict_contains id (nft_store w) = false ->
  dict_get "token_id" (request_match_info greq) = Some id ->
  id <> "" ->
  let later := world_after cs (snd (submit_handler now req w)) in
  exists r,
    get_nft greq later = (Returned r, later) /\
    is_ok r /\
    field "token_id" r = Some (JStr id) /\
    field "nft" r
    = Some (JDict
              [ ("owner",
                 str_or (dict_get "X-User" (request_headers req)) JStr
                   (dict_get_default "owner" (JStr "unknown") d));
                ("metadata", dict_get_default "metadata" (JDict []) d);
                ("minted_at", JStr now) ]).
Proof.
  intros Hdec Hshape Hres Hin Hid Hne later. unfold later.
  rewrite (submit_handler_created now req w d id w1 Hdec Hshape Hres Hin).
  cbn [snd].
  rewrite (get_nft_hit greq _ id
             {| owner :=
                  str_or (dict_get "X-User" (request_headers req)) JStr
                    (dict_get_default "owner" (JStr "unknown") d);
                metadata := dict_get_default "metadata" (JDict []) d;
                minted_at := now |} Hid Hne).
  - eexists. split; [reflexivity|]. repeat split.
  - apply lookup_after. cbn [nft_store]. apply dict_get_set_same.
Qed.
End ReadBack.

(** Record ["7"] of [alice], read back after a refused mint of ["7"]. *)
Lemma submitted_record_is_read_back_witness :
  let req := raw_request (list_byte_of_string text_token7)
               [("X-User", "alice")] in
  let cs := [mint_call "t1" (JDict [("token_id", JInt 7)])] in
  let later := world_after (H := example_runtime) cs
                 (snd (submit_handler (H := example_runtime) "t0" req
                         initial_world)) in
  exists r,
    get_nft (H := example_runtime) (path_request [("token_id", "7")]) later
    = (Returned r, later) /\
    field "nft" r
    = Some (JDict [ ("owner", JStr "alice");
                    ("metadata", JDict [("x", JInt 1)]);
                    ("minted_at", JStr "t0") ]).
Proof.
  intros req cs later.
  destruct (@submitted_record_is_read_back example_runtime "t0" req
              initial_world
              [("token_id", JStr "7"); ("metadata", JDict [("x", JInt 1)])]
              "7" initial_world cs (path_request [("token_id", "7")])
              eq_refl eq_refl eq_refl eq_refl eq_refl)
    as (r & Hrun & _ & _ & Hnft).
  - discriminate.
  - exists r. split; [exact Hrun | exact Hnft].
Defined.

(* ------------------------------------------------------------------ *)
(** ** What the log tells about a run                                  *)
(* ------------------------------------------------------------------ *)

Section Log.
Context `{Runtime}.

(** What one call adds to the log. *)
Lemma serve_log c w :
  exists r w' more,
    serve c w = (Returned r, w') /\
    logged w' = (logged w ++ more)%list /\
    List.length (filter is_received more)
    = (if is_submit c then 1 else 0)%nat /\
    List.length (filter is_exception more)
    = (if (status r =? 500)%Z then 1%nat else 0%nat) /\
    dict_keys (nft_store w')
    = (dict_keys (nft_store w) ++ minted_ids more)%list.
Proof.
  assert (Hnil : forall w0 : world,
             logged w0 = (logged w0 ++ [])%list /\
             dict_keys (nft_store w0)
             = (dict_keys (nft_store w0) ++ minted_ids [])%list)
    by (intros w0; simpl; now rewrite !app_nil_r).
  destruct c as [[] now req]; unfold serve, is_submit; simpl.
  - eexists _, w, []. split; [reflexivity|]. destruct (Hnil w). auto.
  - assert (Hcase : (exists d, request_json req = Returned (JDict d)) \/
                    (forall d, request_json req <> Returned (JDict d))).
    { destruct (request_json req) as [[| | | | | |d]|e];
        try (right; intros; discriminate). left; eauto. }
    destruct Hcase as [[d Hreq]|Hno].
    + destruct (resolve_token_id_returns
                  (dict_get_default "token_id" JNull d) w)
        as (id & w1 & Hres & Hst & Hlog & _).
      destruct (dict_contains id (nft_store w1)) eqn:Hin.
      * rewrite (mint_nft_conflict now req w d id w1 Hreq Hres Hin).
        eexists _, w1, []. split; [reflexivity|].
        rewrite Hlog, Hst. destruct (Hnil w). auto.
      * rewrite (mint_nft_created now req w d id w1 Hreq Hres Hin).
        eexists _, _, [_]. split; [reflexivity|].
        cbn [logged nft_store]. rewrite Hlog.
        split; [reflexivity|]. split; [reflexivity|].
        split; [reflexivity|].
        rewrite dict_keys_set_fresh by now apply dict_contains_false.
        now rewrite Hst.
    + destruct (mint_nft_failed now req w Hno) as [e ->].
      eexists _, _, [_]. split; [reflexivity|].
      cbn [logged nft_store]. repeat split.
      simpl. now rewrite app_nil_r.
  - eexists _, w, []. split; [reflexivity|]. destruct (Hnil w). auto.
  - destruct (Hnil w) as [Hl Hk]. unfold get_nft.
    destruct (dict_get "token_id" (request_match_info req)) as [[|a s]|];
      try (eexists _, w, []; split; [reflexivity|]; auto).
    run_handler. unfold dict_contains.
    destruct (dict_get (String a s) (nft_store w)) as [v|] eqn:Hget;
      simpl; [rewrite Hget|];
      (eexists _, w, []; split; [reflexivity|]; auto).
  - destruct (decode_and_parse (request_read req)) as [j|e] eqn:Hdec.
    + assert (Hcase : (exists d, j = JDict d /\ mint_shaped d = true) \/
                      (forall d, j = JDict d -> mint_shaped d = false)).
      { destruct j; try (right; intros; discriminate).
        destruct (mint_shaped d) eqn:Hs; [left; eauto|].
        right. now intros d' [= <-]. }
      destruct Hcase as [(d & -> & Hshape)|Hshape].
      * destruct (resolve_token_id_returns
                    (dict_get_default "token_id" JNull d) w)
          as (id & w1 & Hres & _).
        destruct (dict_contains id (nft_store w)) eqn:Hin.
        -- rewrite (submit_handler_skipped now req w d id w1
                      Hdec Hshape Hres Hin).
           eexists _, _, [_; _]. split; [reflexivity|].
           cbn [logged nft_store]. repeat split.
           simpl. now rewrite app_nil_r.
        -- rewrite (submit_handler_created now req w d id w1
                      Hdec Hshape Hres Hin).
           eexists _, _, [_; _]. split; [reflexivity|].
           cbn [logged nft_store]. repeat split.
           rewrite dict_keys_set_fresh by now apply dict_contains_false.
           reflexivity.
      * rewrite (submit_handler_ignored now req w j Hdec Hshape).
        eexists _, _, [_]. split; [reflexivity|].
        cbn [logged nft_store]. repeat split.
        simpl. now rewrite app_nil_r.
    + destruct (catch_decode_errors (exn_type e)) eqn:Hcatch.
      * rewrite (submit_handler_opaque now req w e Hdec Hcatch).
        eexists _, _, [_; _]. split; [reflexivity|].
        cbn [logged nft_store]. repeat split.
        simpl. now rewrite app_nil_r.
      * rewrite (submit_handler_error now req w e Hdec Hcatch).
        eexists _, _, [_; _]. split; [reflexivity|].
        cbn [logged nft_store]. repeat split.
        simpl. now rewrite app_nil_r.
  - eexists _, w, []. split; [reflexivity|]. destruct (Hnil w). auto.
Qed.

(** X14. The log accounts for a run.  Whatever the calls and the state
    they start from, the log is only added to, and what is added holds
    exactly one [Received ... bytes] record for each call of [/submit],
    exactly one exception record for each answer with status 500, and
    its [Minted NFT] records name, in order, the ids of the records
    appended to the table. *)
Theorem log_accounts_for_the_run cs w :
  exists more,
    logged (world_after cs w) = (logged w ++ more)%list /\
    List.length (filter is_received more)
    = List.length (filter is_submit cs) /\
    List.length (filter is_exception more)
    = List.length (filter is_500 (fst (serve_all cs w))) /\
    dict_keys (nft_store (world_after cs w))
    = (dict_keys (nft_store w) ++ minted_ids more)%list.
Proof.
  revert w. induction cs as [|c cs IH]; intros w.
  - exists []. rewrite world_after_nil. simpl. now rewrite !app_nil_r.
  - rewrite world_after_cons. simpl.
    destruct (serve_log c w) as (r & w' & m1 & Hs & Hl1 & Hr1 & He1 & Hk1).
    rewrite Hs. cbn [snd].
    destruct (IH w') as (m2 & Hl2 & Hr2 & He2 & Hk2).
    destruct (serve_all cs w') as [rs w''] eqn:Hall.
    exists (m1 ++ m2)%list.
    rewrite Hl2, Hl1, Hk2, Hk1, minted_ids_app, !filter_app, !length_app,
      !app_assoc.
    split; [reflexivity|].
    split; [rewrite Hr1, Hr2; now destruct (is_submit c)|].
    split; [|reflexivity].
    rewrite He1, He2. cbn [fst filter is_500].
    now destruct (status r =? 500).
Qed.
End Log.

(* ------------------------------------------------------------------ *)
(** ** What a mint stores                                              *)
(* ------------------------------------------------------------------ *)

Section Stored.
Context `{Runtime}.

(** X15. A mint under a free id stores the [owner] and [metadata] entries
    of the body as they are, whatever JSON values they hold: the defaults
    ["unknown"] and [{}] stand in for a missing key only, not for a
    [null], an empty string or a number; [minted_at] is the clock. *)
Theorem mint_stores_the_body_as_it_is now req w d id w1 :
  request_json req = Returned (JDict d) ->
  resolve_token_id (dict_get_default "token_id" JNull d) w
  = (Returned id, w1) ->
  dict_contains id (nft_store w) = false ->
  dict_get id (nft_store (snd (mint_nft now req w)))
  = Some {| owner := match dict_get "owner" d with
                     | Some o => o
                     | None => JStr "unknown"
                     end;
            metadata := match dict_get "metadata" d with
                        | Some m => m
                        | None => JDict []
                        end;
            minted_at := now |}.
Proof.
  intros Hreq Hres Hin.
  destruct (resolve_token_id_returns (dict_get_default "token_id" JNull d) w)
    as (id' & w1' & Hres' & Hst & _).
  rewrite Hres in Hres'. injection Hres' as <- <-.
  rewrite <- Hst in Hin.
  rewrite (mint_nft_created now req w d id w1 Hreq Hres Hin).
  cbn [snd nft_store]. apply dict_get_set_same.
Qed.
End Stored.

(** [{"token_id": "7", "owner": null, "metadata": 5}]. *)
Lemma mint_stores_the_body_as_it_is_witness :
  let d := [("token_id", JStr "7"); ("owner", JNull);
            ("metadata", JInt 5)] in
  dict_get "7"
    (nft_store (snd (mint_nft (H := example_runtime) "t0"
                       (json_request (JDict d)) initial_world)))
  = Some {| owner := JNull; metadata := JInt 5; minted_at := "t0" |}.
Proof.
  intros d.
  exact (@mint_stores_the_body_as_it_is example_runtime "t0"
           (json_request (JDict d)) initial_world d "7" initial_world
           eq_refl eq_refl eq_refl).
Defined.

(* ------------------------------------------------------------------ *)
(** ** The table against the calls and their answers                   *)
(* ------------------------------------------------------------------ *)

Section Counts.
Context `{Runtime}.

(** The keys after a call: the id it asks for is added unless it is
    there. *)
Lemma serve_keys c w :
  dict_keys (nft_store (snd (serve c w)))
  = (dict_keys (nft_store w)
     ++ match asked_id (next_token_id w) c with
        | Some id => if dict_contains id (nft_store w) then [] else [id]
        | None => []
        end)%list /\
  next_token_id (snd (serve c w))
  = next_token_id w + (if auto_generating c then 1 else 0).
Proof.
  destruct (serve_effect c w) as (r & w' & Hs & Hn & Heff).
  pose proof (serve_mints c w) as Hmints.
  rewrite Hs in *. cbn [snd] in *. split; [|exact Hn].
  unfold asked_id, auto_generating, explicit_id in *.
  destruct (mint_body c) as [d|].
  - specialize (Hmints d eq_refl). cbv zeta in Hmints.
    set (id := if truthy (dict_get_default "token_id" JNull d)
               then py_str (dict_get_default "token_id" JNull d)
               else str_of_int (next_token_id w)) in *.
    destruct (dict_contains id (nft_store w)) eqn:Hin.
    + destruct Heff as [[-> _]|(id' & rec & Hfresh & _ & _ & Hid)];
        [now rewrite app_nil_r|].
      exfalso. assert (id' = id).
      { unfold id.
        destruct (truthy (dict_get_default "token_id" JNull d)).
        - destruct Hid as [[<-|[]]|[Hf _]]; [reflexivity | discriminate].
        - destruct Hid as [[]|[_ ->]]. reflexivity. }
      subst id'. apply dict_contains_false in Hfresh. congruence.
    + destruct (Hmints eq_refl) as [stored ->].
      apply dict_keys_set_fresh. now apply dict_contains_false.
  - destruct Heff as [[-> _]|(id' & rec & _ & _ & _ & [[]|[Hf _]])];
      [now rewrite app_nil_r | discriminate].
Qed.

(** The keys after a run are the keys before it and the ids asked for. *)
Lemma keys_are_asked cs w id :
  In id (dict_keys (nft_store (world_after cs w))) <->
  In id (dict_keys (nft_store w)) \/ In id (asked_ids (next_token_id w) cs).
Proof.
  revert w. induction cs as [|c cs IH]; intros w.
  - rewrite world_after_nil. simpl. tauto.
  - rewrite world_after_cons, IH.
    destruct (serve_keys c w) as [-> ->]. cbn [asked_ids].
    replace (next_token_id w + (if auto_generating c then 1 else 0))
      with (if auto_generating c then next_token_id w + 1
            else next_token_id w)
      by (destruct (auto_generating c); lia).
    rewrite in_app_iff.
    destruct (asked_id (next_token_id w) c) as [i|] eqn:Hask.
    + destruct (dict_contains i (nft_store w)) eqn:Hin; cbn [In].
      * apply dict_contains_keys in Hin.
        intuition (subst; auto).
      * intuition (subst; auto).
    + replace (auto_generating c) with false; [cbn [In]; tauto|].
      unfold auto_generating, asked_id in *.
      destruct (mint_body c); [discriminate | reflexivity].
Qed.

(** A mint answered with status 200 has written its id, which was free. *)
Lemma mint_nft_ok_fresh now req w r w' id :
  mint_nft now req w = (Returned r, w') ->
  status r = 200 ->
  field "token_id" r = Some (JStr id) ->
  dict_get id (nft_store w) = None /\
  dict_keys (nft_store w') = (dict_keys (nft_store w) ++ [id])%list.
Proof.
  intros Hrun Hst Hid.
  assert (Hcase : (exists d, request_json req = Returned (JDict d)) \/
                  (forall d, request_json req <> Returned (JDict d))).
  { destruct (request_json req) as [[| | | | | |d]|e];
      try (right; intros; discriminate). left; eauto. }
  destruct Hcase as [[d Hreq]|Hno].
  2:{ destruct (mint_nft_failed now req w Hno) as [e' He'].
      rewrite He' in Hrun. injection Hrun as <- <-. discriminate. }
  destruct (resolve_token_id_returns (dict_get_default "token_id" JNull d) w)
    as (id' & w1 & Hres & Hw1 & _).
  destruct (dict_contains id' (nft_store w1)) eqn:Hin.
  - rewrite (mint_nft_conflict now req w d id' w1 Hreq Hres Hin) in Hrun.
    injection Hrun as <- <-. discriminate.
  - rewrite (mint_nft_created now req w d id' w1 Hreq Hres Hin) in Hrun.
    injection Hrun as <- <-. cbn in Hid. injection Hid as ->.
    rewrite Hw1 in *. apply dict_contains_false in Hin.
    split; [exact Hin|]. cbn [nft_store].
    now apply dict_keys_set_fresh.
Qed.

(** What the answer to one call reports, against the table. *)
Lemma serve_answer c w :
  exists r w',
    serve c w = (Returned r, w') /\
    (forall id, In id (minted_answer c (Returned r)) ->
                ~ In id (dict_keys (nft_store w)) /\
                In id (dict_keys (nft_store w'))) /\
    (is_submit c = false ->
     dict_keys (nft_store w')
     = (dict_keys (nft_store w) ++ minted_answer c (Returned r))%list).
Proof.
  assert (Hread : forall (r : response) (rt : route) now req,
             rt <> POST_mint ->
             (forall id, In id (minted_answer (Call rt now req) (Returned r))
                         -> ~ In id (dict_keys (nft_store w)) /\
                            In id (dict_keys (nft_store w))) /\
             dict_keys (nft_store w)
             = (dict_keys (nft_store w)
                ++ minted_answer (Call rt now req) (Returned r))%list).
  { intros r rt now req Hrt. unfold minted_answer. cbn [call_route].
    destruct rt; try congruence; (split; [intros id []|]);
      now rewrite app_nil_r. }
  destruct c as [[] now req]; unfold serve;
    cbn [call_route call_now call_request].
  - eexists _, w. split; [reflexivity|].
    destruct (Hread (fst (let (o, _) := health now req w in
                          match o with Returned r => (r, tt)
                                     | Raised _ => (json_response JNull 0, tt)
                          end)) GET_health now req) as [H1 H2];
      [discriminate|]. split; [exact H1 | intros _; exact H2].
  - (* POST_mint *)
    assert (Hcase : (exists d, request_json req = Returned (JDict d)) \/
                    (forall d, request_json req <> Returned (JDict d))).
    { destruct (request_json req) as [[| | | | | |d]|e];
        try (right; intros; discriminate). left; eauto. }
    destruct Hcase as [[d Hreq]|Hno].
    + destruct (resolve_token_id_returns
                  (dict_get_default "token_id" JNull d) w)
        as (id & w1 & Hres & Hw1 & _).
      destruct (dict_contains id (nft_store w1)) eqn:Hin.
      * rewrite (mint_nft_conflict now req w d id w1 Hreq Hres Hin).
        eexists _, _. split; [reflexivity|].
        unfold minted_answer. cbn [call_route status json_response Z.eqb].
        split; [intros id' []|]. intros _. now rewrite Hw1, app_nil_r.
      * rewrite (mint_nft_created now req w d id w1 Hreq Hres Hin).
        eexists _, _. split; [reflexivity|].
        assert (Hans : minted_answer (Call POST_mint now req)
                         (Returned
                            (json_response
                               (JDict
                                  [ ("status", JStr "ok");
                                    ("message",
                                     JStr "NFT minted successfully");
                                    ("token_id", JStr id);
                                    ("nft",
                                     JDict
                                       (nft_json
                                          {| owner :=
                                               dict_get_default "owner"
                                                 (JStr "unknown") d;
                                             metadata :=
                                               dict_get_default "metadata"
                                                 (JDict []) d;
                                             minted_at := now |})) ])
                               200))
                       = [id]) by reflexivity.
        rewrite Hans. cbn [nft_store]. rewrite Hw1 in *.
        apply dict_contains_false in Hin.
        rewrite dict_keys_set_fresh by assumption.
        split; [|reflexivity].
        intros id' [<-|[]]. split.
        -- intros Hk. apply dict_contains_keys in Hk.
           apply dict_contains_false in Hin. congruence.
        -- apply in_or_app. right. left. reflexivity.
    + destruct (mint_nft_failed now req w Hno) as [e ->].
      eexists _, _. split; [reflexivity|].
      unfold minted_answer. cbn [call_route status json_response Z.eqb].
      cbn [nft_store].
      split; [intros id' []|]. intros _. now rewrite app_nil_r.
  - eexists _, w. split; [reflexivity|].
    destruct (Hread (fst (let (o, _) := list_nfts req w in
                          match o with Returned r => (r, tt)
                                     | Raised _ => (json_response JNull 0, tt)
                          end)) GET_nfts now req) as [H1 H2];
      [discriminate|]. split; [exact H1 | intros _; exact H2].
  - destruct (get_nft_returns req w) as [r ->].
    exists r, w. split; [reflexivity|].
    destruct (Hread r GET_nft now req) as [H1 H2]; [discriminate|].
    split; [exact H1 | intros _; exact H2].
  - destruct (submit_handler_effect now req w) as (r & w' & -> & _).
    exists r, w'. split; [reflexivity|].
    split; [intros id [] | discriminate].
  - eexists _, w. split; [reflexivity|].
    destruct (Hread {| status := 200; body := None;
                       headers := cors_headers |} OPTIONS_any now req)
      as [H1 H2]; [discriminate|].
    split; [exact H1 | intros _; exact H2].
Qed.

Lemma answered_ids_cons c cs w :
  answered_ids (c :: cs) (fst (serve_all (c :: cs) w))
  = (minted_answer c (fst (serve c w))
     ++ answered_ids cs (fst (serve_all cs (snd (serve c w)))))%list.
Proof.
  unfold answered_ids. cbn [serve_all].
  destruct (serve c w) as [o w']. cbn [fst snd].
  destruct (serve_all cs w') as [rs w'']. reflexivity.
Qed.

(** The ids that the answers of a run report as minted are distinct, were
    not in the table before and are in it afterwards; without submissions
    they are exactly what the run added. *)
Lemma answers_of_run cs w :
  NoDup (dict_keys (nft_store w)) ->
  NoDup (answered_ids cs (fst (serve_all cs w))) /\
  (forall id, In id (answered_ids cs (fst (serve_all cs w))) ->
              ~ In id (dict_keys (nft_store w)) /\
              In id (dict_keys (nft_store (world_after cs w)))) /\
  (forallb (fun c => negb (is_submit c)) cs = true ->
   dict_keys (nft_store (world_after cs w))
   = (dict_keys (nft_store w)
      ++ answered_ids cs (fst (serve_all cs w)))%list).
Proof.
  revert w. induction cs as [|c cs IH]; intros w Hnd.
  - rewrite world_after_nil. unfold answered_ids. simpl.
    split; [constructor|]. split; [intros id []|].
    intros _. now rewrite app_nil_r.
  - rewrite answered_ids_cons, world_after_cons.
    destruct (serve_answer c w) as (r & w' & Hs & Hans & Hkeys).
    destruct (serve_effect c w) as (r0 & w0 & Hs0 & Heff).
    rewrite Hs in Hs0. injection Hs0 as <- <-.
    rewrite Hs. cbn [fst snd].
    assert (Hnd' : NoDup (dict_keys (nft_store w')))
      by (eapply effect_NoDup; eauto).
    assert (Hmono : forall id, In id (dict_keys (nft_store w)) ->
                               In id (dict_keys (nft_store w'))).
    { intros id Hin.
      destruct (effect_keys c w r w' Heff) as (new & -> & _).
      apply in_or_app. now left. }
    destruct (IH w' Hnd') as (IHnd & IHin & IHkeys).
    assert (Hone : minted_answer c (Returned r) = [] \/
                   exists id, minted_answer c (Returned r) = [id]).
    { unfold minted_answer. destruct (call_route c); auto.
      destruct (status r =? 200); auto.
      destruct (field "token_id" r) as [[| | | |id| |]|]; eauto. }
    split; [|split].
    + destruct Hone as [-> | [id Hid]]; [exact IHnd|].
      rewrite Hid. cbn [app]. constructor; [|exact IHnd].
      intros Hin. apply IHin in Hin as [Hnot _]. apply Hnot.
      apply Hans. rewrite Hid. now left.
    + intros id Hin. apply in_app_or in Hin as [Hin|Hin].
      * apply Hans in Hin as [Hnot Hin']. split; [exact Hnot|].
        apply (proj2 (keys_are_asked cs w' id)). now left.
      * apply IHin in Hin as [Hnot Hin']. split; [|exact Hin'].
        intros Hk. apply Hnot, Hmono, Hk.
    + cbn [forallb]. intros Hall. apply andb_prop in Hall as [Hc Hcs].
      rewrite (IHkeys Hcs), Hkeys, app_assoc; [reflexivity|].
      now destruct (is_submit c).
Qed.

(** C7. After any run from the initial state, the [count] of [list_nfts]
    is the number of distinct ids that the calls of the run asked to mint
    -- the ids supplied and the ids generated, by [/mint] and by
    mint-shaped submissions, each counted once however often it was asked
    for -- and these ids are exactly the keys of the table.  The ids that
    the answers of [/mint] report as minted are distinct and are keys of
    the table; in a run without submissions they are the keys, in order,
    and [count] is their number.  The [nfts] of the listing are the stored
    records, each as an object with its [token_id] next to its fields, one
    for each record and nothing else; [health] reports the size of the
    table; neither changes the world.  The keys are also the ids that the
    log reports as minted. *)
Theorem counts_after_any_run cs now req req' :
  let w := world_after cs initial_world in
  let answers := fst (serve_all cs initial_world) in
  let flat := fun item : str * nft =>
    JDict [ ("token_id", JStr (fst item));
            ("owner", owner (snd item));
            ("metadata", metadata (snd item));
            ("minted_at", JStr (minted_at (snd item))) ] in
  exists r rh,
    list_nfts req w = (Returned r, w) /\
    health now req' w = (Returned rh, w) /\
    status r = 200 /\ status rh = 200 /\
    (* the count against the calls *)
    field "count" r
    = Some (JInt (Z.of_nat
                    (List.length (nodup string_dec (asked_ids 1 cs))))) /\
    (forall id, In id (dict_keys (nft_store w)) <-> In id (asked_ids 1 cs)) /\
    (* the count against the answers *)
    NoDup (answered_ids cs answers) /\
    (forall id, In id (answered_ids cs answers) ->
                In id (dict_keys (nft_store w))) /\
    (forallb (fun c => negb (is_submit c)) cs = true ->
     dict_keys (nft_store w) = answered_ids cs answers /\
     field "count" r
     = Some (JInt (Z.of_nat (List.length (answered_ids cs answers))))) /\
    (* the count against the log *)
    field "count" r
    = Some (JInt (Z.of_nat
                    (List.length
                       (nodup string_dec (minted_ids (logged w)))))) /\
    NoDup (minted_ids (logged w)) /\
    dict_keys (nft_store w) = minted_ids (logged w) /\
    (* the listing and the health count *)
    field "nfts" r = Some (JList (map flat (nft_store w))) /\
    (forall id stored,
        dict_get id (nft_store w) = Some stored <->
        In (flat (id, stored)) (map flat (nft_store w))) /\
    field "nfts_minted" rh
    = Some (JInt (Z.of_nat (List.length (nft_store w)))).
Proof.
  intros w answers flat.
  assert (Hkeys : dict_keys (nft_store w) = minted_ids (logged w))
    by (apply keys_after; reflexivity).
  assert (Hnd : NoDup (dict_keys (nft_store w)))
    by (apply keys_NoDup_after; constructor).
  assert (Hasked : forall id, In id (dict_keys (nft_store w)) <->
                              In id (asked_ids 1 cs)).
  { intros id. unfold w. rewrite keys_are_asked. simpl. tauto. }
  assert (Hlen : List.length (nft_store w)
                 = List.length (nodup string_dec (asked_ids 1 cs))).
  { replace (List.length (nft_store w))
      with (List.length (dict_keys (nft_store w)))
      by (unfold dict_keys; now rewrite length_map).
    apply Nat.le_antisymm; apply NoDup_incl_length;
      try assumption; try apply NoDup_nodup.
    - intros id Hin. apply nodup_In. now apply Hasked.
    - intros id Hin. apply nodup_In in Hin. now apply Hasked. }
  destruct (answers_of_run cs initial_world (NoDup_nil _))
    as (Hand & Hain & Hakeys).
  fold answers in Hand, Hain, Hakeys. fold w in Hain, Hakeys.
  assert (Hcount : forall n : nat,
             List.length (nft_store w) = n ->
             field "count"
               (json_response
                  (JDict
                     [ ("status", JStr "ok");
                       ("count",
                        JInt (Z.of_nat
                                (List.length
                                   (map (fun item : str * nft =>
                                           let (token_id, nft_data) := item in
                                           JDict (("token_id", JStr token_id)
                                                  :: nft_json nft_data))
                                      (nft_store w)))));
                       ("nfts",
                        JList
                          (map (fun item : str * nft =>
                                  let (token_id, nft_data) := item in
                                  JDict (("token_id", JStr token_id)
                                         :: nft_json nft_data))
                             (nft_store w))) ])
                  200)
             = Some (JInt (Z.of_nat n))).
  { intros n <-. cbn. now rewrite length_map. }
  eexists _, _. split; [reflexivity|]. split; [reflexivity|].
  split; [reflexivity|]. split; [reflexivity|].
  split; [apply Hcount, Hlen|].
  split; [exact Hasked|].
  split; [exact Hand|].
  split; [intros id Hin; now apply Hain|].
  split.
  { intros Hall. specialize (Hakeys Hall). simpl in Hakeys.
    split; [exact Hakeys|]. apply Hcount.
    rewrite <- Hakeys. unfold dict_keys. now rewrite length_map. }
  split.
  { apply Hcount.
    rewrite <- Hkeys, (nodup_fixed_point string_dec Hnd).
    unfold dict_keys. now rewrite length_map. }
  split; [now rewrite <- Hkeys|]. split; [exact Hkeys|].
  split.
  { cbn. do 2 f_equal. apply map_ext. now intros [id stored]. }
  split; [|reflexivity].
  intros id stored. split.
  - intros Hget. apply (in_map flat). now apply dict_get_In.
  - intros Hin. apply in_map_iff in Hin as ([id' [o m t]] & Heq & Hin).
    destruct stored as [o' m' t']. unfold flat in Heq. simpl in Heq.
    injection Heq as -> -> -> ->.
    now apply dict_In_get.
Qed.
End Counts.

(** Two runs.  In the first, ids ["1"] and ["7"] are minted by [/mint],
    ["7"] is asked for three more times (refused once, skipped once) and
    ["2"] is created by a submission: the count is 3 while the answers of
    [/mint] report two ids.  In the second, without submissions, the count
    is the number of ids that the answers report. *)
Lemma counts_after_any_run_witness :
  let mixed :=
    [ mint_call "t0" (JDict []);
      mint_call "t1" (JDict [("token_id", JStr "7")]);
      mint_call "t2" (JDict [("token_id", JInt 7)]);
      submit_call "t3" text_token7 [("X-User", "alice")];
      submit_call "t4" text_metadata_only [];
      mint_call "t5" (JList []) ] in
  let mints :=
    [ mint_call "t0" (JDict []);
      mint_call "t1" (JDict [("token_id", JStr "7")]);
      mint_call "t2" (JDict [("token_id", JInt 7)]);
      mint_call "t3" (JList []) ] in
  (exists r,
      fst (list_nfts (path_request [])
             (world_after (H := example_runtime) mixed initial_world))
      = Returned r /\
      field "count" r = Some (JInt 3) /\
      asked_ids (H := example_runtime) 1 mixed = ["1"; "7"; "7"; "7"; "2"] /\
      answered_ids mixed
        (fst (serve_all (H := example_runtime) mixed initial_world))
      = ["1"; "7"]) /\
  (exists r,
      fst (list_nfts (path_request [])
             (world_after (H := example_runtime) mints initial_world))
      = Returned r /\
      field "count" r = Some (JInt 2) /\
      dict_keys
        (nft_store (world_after (H := example_runtime) mints initial_world))
      = ["1"; "7"]).
Proof.
  intros mixed mints. split.
  - destruct (@counts_after_any_run example_runtime mixed "t6"
                (path_request []) (path_request []))
      as (r & rh & Hlist & _ & _ & _ & Hcount & _).
    exists r. split; [now rewrite Hlist|].
    split; [exact Hcount|]. split; reflexivity.
  - destruct (@counts_after_any_run example_runtime mints "t6"
                (path_request []) (path_request []))
      as (r & rh & Hlist & _ & _ & _ & _ & _ & _ & _ & Hmints & _).
    destruct (Hmints eq_refl) as [Hkeys Hcount].
    exists r. split; [now rewrite Hlist|].
    split; [exact Hcount | exact Hkeys].
Defined.
